(** * DreamCraft API (src/main.py): a shallow embedding of the art generator
    [_svg_placeholder] / [generate_art] and of the catalog handlers
    [list_products] / [create_product], with their properties. *)

From Stdlib Require Import ZArith List String Ascii Bool Lia QArith Qreduction Qabs.
Import ListNotations.
Open Scope Z_scope.
Abbreviation length := List.length.

(** ** Python values *)

(** A Python [str] is a sequence of code points. *)
Definition pstr := list Z.

(** Bytes objects: lists of integers in [0, 256). *)
Definition bytes := list Z.

(** String literals of the source are written as Rocq literals; since the
    SVG template is full of double quotes, a literal writes each double
    quote of the source as an apostrophe ([lit] turns it back). The
    template itself contains no apostrophe. *)
Definition lit (x : string) : pstr :=
  map (fun a => let n := Z.of_nat (nat_of_ascii a) in
                if n =? 39 then 34 else n) (list_ascii_of_string x).

(** ASCII-only literals that keep apostrophes. *)
Definition alit (x : string) : pstr :=
  map (fun a => Z.of_nat (nat_of_ascii a)) (list_ascii_of_string x).

Definition nl : pstr := [10].

(** Python exceptions: the class and [str(e)]. *)
Inductive exn_type :=
| ImportError | ValueError | TypeError | OverflowError
| ValidationError | UnicodeEncodeError | StoreError
| HTTPException (status_code : Z).

Record exn := mk_exn { exn_kind : exn_type; exn_msg : pstr }.

(** Computations that return or raise. *)
Inductive res (A : Type) := Ok (a : A) | Raise (e : exn).
Arguments Ok {A} a.
Arguments Raise {A} e.

Definition bind {A B} (m : res A) (k : A -> res B) : res B :=
  match m with Ok a => k a | Raise e => Raise e end.

Notation "x <- m ;; k" := (bind m (fun x => k))
  (at level 61, m at next level, right associativity).

(** [try: m except Exception as e: h e] *)
Definition try_except {A} (m : res A) (h : exn -> res A) : res A :=
  match m with Ok a => Ok a | Raise e => h e end.

(** ** [str.encode("utf-8")] (errors="strict") *)

Definition is_surrogate (c : Z) : bool := (55296 <=? c) && (c <=? 57343).

Definition utf8_cp (c : Z) : option bytes :=
  if c <? 128 then Some [c]
  else if c <? 2048 then
    Some [Z.lor 192 (Z.shiftr c 6); Z.lor 128 (Z.land c 63)]
  else if c <? 65536 then
    if is_surrogate c then None
    else Some [Z.lor 224 (Z.shiftr c 12);
               Z.lor 128 (Z.land (Z.shiftr c 6) 63);
               Z.lor 128 (Z.land c 63)]
  else Some [Z.lor 240 (Z.shiftr c 18);
             Z.lor 128 (Z.land (Z.shiftr c 12) 63);
             Z.lor 128 (Z.land (Z.shiftr c 6) 63);
             Z.lor 128 (Z.land c 63)].

Definition encode_err : exn :=
  mk_exn UnicodeEncodeError (alit "'utf-8' codec can't encode character: surrogates not allowed").

Fixpoint encode (s : pstr) : res bytes :=
  match s with
  | [] => Ok []
  | c :: s' =>
      match utf8_cp c with
      | None => Raise encode_err
      | Some bs => r <- encode s';; Ok (bs ++ r)
      end
  end.

(** A Python [str] whose code points are all Unicode scalar values (no lone
    surrogate): the strings [encode] accepts. *)
Definition valid_cp (c : Z) : bool := (0 <=? c) && (c <=? 1114111) && negb (is_surrogate c).
Definition valid_str (s : pstr) : bool := forallb valid_cp s.

(** ** [hashlib.sha256(b).hexdigest()] (FIPS 180-4) *)

Module Sha256.

Definition mask32 (x : Z) : Z := Z.land x 4294967295.
Definition add32 (x y : Z) : Z := mask32 (x + y).
Definition rotr (n x : Z) : Z := mask32 (Z.lor (Z.shiftr x n) (Z.shiftl x (32 - n))).
Definition ch (x y z : Z) : Z := Z.lxor (Z.land x y) (Z.land (Z.lxor x 4294967295) z).
Definition maj (x y z : Z) : Z := Z.lxor (Z.lxor (Z.land x y) (Z.land x z)) (Z.land y z).
Definition bsig0 (x : Z) : Z := Z.lxor (Z.lxor (rotr 2 x) (rotr 13 x)) (rotr 22 x).
Definition bsig1 (x : Z) : Z := Z.lxor (Z.lxor (rotr 6 x) (rotr 11 x)) (rotr 25 x).
Definition ssig0 (x : Z) : Z := Z.lxor (Z.lxor (rotr 7 x) (rotr 18 x)) (Z.shiftr x 3).
Definition ssig1 (x : Z) : Z := Z.lxor (Z.lxor (rotr 17 x) (rotr 19 x)) (Z.shiftr x 10).

(** Hexadecimal digit value of an ASCII character (0 for others). *)
Definition hexval (c : Z) : Z :=
  if (48 <=? c) && (c <=? 57) then c - 48
  else if (97 <=? c) && (c <=? 102) then c - 87 else 0.

(** Big-endian words of [n] bytes each, read from a hexadecimal text. *)
Fixpoint hex_words_aux (fuel : nat) (digits : list Z) : list Z :=
  match fuel with
  | O => []
  | S f =>
      match digits with
      | [] => []
      | _ => fold_left (fun acc d => acc * 16 + hexval d) (firstn 8 digits) 0
             :: hex_words_aux f (skipn 8 digits)
      end
  end.
Definition hex_words (s : string) : list Z :=
  let d := alit s in hex_words_aux (length d) d.

(** Round constants (cube roots of the first 64 primes) and the initial
    state (square roots of the first 8 primes), in hexadecimal. *)
Definition K : list Z := hex_words (
  "428a2f9871374491b5c0fbcfe9b5dba53956c25b59f111f1923f82a4ab1c5ed5" ++
  "d807aa9812835b01243185be550c7dc372be5d7480deb1fe9bdc06a7c19bf174" ++
  "e49b69c1efbe47860fc19dc6240ca1cc2de92c6f4a7484aa5cb0a9dc76f988da" ++
  "983e5152a831c66db00327c8bf597fc7c6e00bf3d5a7914706ca635114292967" ++
  "27b70a852e1b21384d2c6dfc53380d13650a7354766a0abb81c2c92e92722c85" ++
  "a2bfe8a1a81a664bc24b8b70c76c51a3d192e819d6990624f40e3585106aa070" ++
  "19a4c1161e376c082748774c34b0bcb5391c0cb34ed8aa4a5b9cca4f682e6ff3" ++
  "748f82ee78a5636f84c878148cc7020890befffaa4506cebbef9a3f7c67178f2")%string.

Definition IV : list Z := hex_words
  "6a09e667bb67ae853c6ef372a54ff53a510e527f9b05688c1f83d9ab5be0cd19".

(** Padding: 0x80, zeros up to 56 mod 64, then the bit length on 8 bytes. *)
Fixpoint be_bytes (n : nat) (x : Z) : bytes :=
  match n with
  | O => []
  | S n' => be_bytes n' (Z.shiftr x 8) ++ [Z.land x 255]
  end.

Definition pad (msg : bytes) : bytes :=
  let len := Z.of_nat (length msg) in
  let zeros := Z.to_nat ((55 - len) mod 64) in
  msg ++ [128] ++ repeat 0 zeros ++ be_bytes 8 (len * 8).

Fixpoint words_of_bytes (fuel : nat) (bs : bytes) : list Z :=
  match fuel with
  | O => []
  | S f =>
      match bs with
      | b0 :: b1 :: b2 :: b3 :: rest =>
          (b0 * 16777216 + b1 * 65536 + b2 * 256 + b3) :: words_of_bytes f rest
      | _ => []
      end
  end.

(** Message schedule W0..W63 of one block, built in reverse order. *)
Fixpoint schedule_rev (n : nat) (acc : list Z) : list Z :=
  match n with
  | O => acc
  | S n' =>
      let w2 := nth 1 acc 0 in let w7 := nth 6 acc 0 in
      let w15 := nth 14 acc 0 in let w16 := nth 15 acc 0 in
      schedule_rev n' (add32 (add32 (ssig1 w2) w7) (add32 (ssig0 w15) w16) :: acc)
  end.

Definition schedule (block : list Z) : list Z := rev (schedule_rev 48 (rev block)).

Definition round (st : list Z) (kw : Z * Z) : list Z :=
  match st with
  | [a; b; c; d; e; f; g; h] =>
      let t1 := add32 (add32 (add32 h (bsig1 e)) (add32 (ch e f g) (fst kw))) (snd kw) in
      let t2 := add32 (bsig0 a) (maj a b c) in
      [add32 t1 t2; a; b; c; add32 d t1; e; f; g]
  | _ => st
  end.

Definition compress (H : list Z) (block : list Z) : list Z :=
  let st := fold_left round (combine K (schedule block)) H in
  map (fun p => add32 (fst p) (snd p)) (combine H st).

Fixpoint blocks (fuel : nat) (ws : list Z) : list (list Z) :=
  match fuel with
  | O => []
  | S f => match ws with [] => [] | _ => firstn 16 ws :: blocks f (skipn 16 ws) end
  end.

Definition digest_words (msg : bytes) : list Z :=
  let ws := words_of_bytes (length (pad msg)) (pad msg) in
  fold_left compress (blocks (length ws) ws) IV.

(** Lower-case hexadecimal, as [hexdigest()] prints it. *)
Definition hex_char (d : Z) : Z := if d <? 10 then 48 + d else 87 + d.

Definition word_hex (w : Z) : pstr :=
  map (fun i => hex_char (Z.land (Z.shiftr w (28 - 4 * i)) 15)) [0; 1; 2; 3; 4; 5; 6; 7].

Definition hexdigest (msg : bytes) : pstr := flat_map word_hex (digest_words msg).

End Sha256.

Example sha256_abc :
  Sha256.hexdigest (alit "abc") =
  alit "ba7816bf8f01cfea414140de5dae2223b00361a396177a9cb410ff61f20015ad".
Proof. vm_compute. reflexivity. Qed.

Example sha256_empty :
  Sha256.hexdigest [] =
  alit "e3b0c44298fc1c149afbf4c8996fb92427ae41e4649b934ca495991b7852b855".
Proof. vm_compute. reflexivity. Qed.

(** ** Helpers on Python strings *)

(** [a == b] on [str]. *)
Fixpoint str_eqb (a b : pstr) : bool :=
  match a, b with
  | [], [] => true
  | x :: a', y :: b' => (x =? y) && str_eqb a' b'
  | _, _ => false
  end.

(** [s in (t1, t2, ...)] *)
Definition str_in (s : pstr) (ts : list pstr) : bool := existsb (str_eqb s) ts.

(** [s[i:j]] for [0 <= i <= j]. *)
Definition slice (i j : nat) (s : pstr) : pstr := firstn (j - i) (skipn i s).

(** [str(n)] for a non-negative [int]. *)
Fixpoint dec_aux (fuel : nat) (n : Z) (acc : pstr) : pstr :=
  match fuel with
  | O => acc
  | S f => let acc' := (48 + n mod 10) :: acc in
           if n <? 10 then acc' else dec_aux f (n / 10) acc'
  end.
Definition dec (n : Z) : pstr := dec_aux (Z.to_nat n + 1) n [].

(** [x or d] for an optional [str]: [None] and [""] are falsy. *)
Definition str_or (x : option pstr) (d : pstr) : pstr :=
  match x with
  | None | Some [] => d
  | Some s => s
  end.

(** ** [base64.b64encode] (standard alphabet, [=] padding) *)

Definition b64_alphabet : pstr :=
  alit "ABCDEFGHIJKLMNOPQRSTUVWXYZabcdefghijklmnopqrstuvwxyz0123456789+/".

Definition b64_char (i : Z) : Z := nth (Z.to_nat i) b64_alphabet 61.

Fixpoint b64encode (bs : bytes) : pstr :=
  match bs with
  | b0 :: b1 :: b2 :: rest =>
      let n := b0 * 65536 + b1 * 256 + b2 in
      [b64_char (n / 262144); b64_char (n / 4096 mod 64);
       b64_char (n / 64 mod 64); b64_char (n mod 64)] ++ b64encode rest
  | [b0; b1] =>
      let n := b0 * 65536 + b1 * 256 in
      [b64_char (n / 262144); b64_char (n / 4096 mod 64); b64_char (n / 64 mod 64); 61]
  | [b0] =>
      let n := b0 * 65536 in
      [b64_char (n / 262144); b64_char (n / 4096 mod 64); 61; 61]
  | [] => []
  end.

(** Standard base64 decoding, used to state what the payload decodes to. *)
Definition b64_index (c : Z) : option Z :=
  if (65 <=? c) && (c <=? 90) then Some (c - 65)
  else if (97 <=? c) && (c <=? 122) then Some (c - 71)
  else if (48 <=? c) && (c <=? 57) then Some (c + 4)
  else if c =? 43 then Some 62
  else if c =? 47 then Some 63
  else None.

Definition obind {A B} (m : option A) (k : A -> option B) : option B :=
  match m with Some a => k a | None => None end.

Fixpoint b64decode (cs : pstr) : option bytes :=
  match cs with
  | [] => Some []
  | c0 :: c1 :: c2 :: c3 :: rest =>
      obind (b64_index c0) (fun i0 => obind (b64_index c1) (fun i1 =>
      if (c3 =? 61) && (c2 =? 61) && (length rest =? 0)%nat then
        Some [(i0 * 262144 + i1 * 4096) / 65536]
      else if (c3 =? 61) && (length rest =? 0)%nat then
        obind (b64_index c2) (fun i2 =>
          let n := i0 * 262144 + i1 * 4096 + i2 * 64 in
          Some [n / 65536; n / 256 mod 256])
      else
        obind (b64_index c2) (fun i2 => obind (b64_index c3) (fun i3 =>
          let n := i0 * 262144 + i1 * 4096 + i2 * 64 + i3 in
          obind (b64decode rest) (fun r => Some ([n / 65536; n / 256 mod 256; n mod 256] ++ r))))))
  | _ => None
  end.

(** ** The art generator (src/main.py, lines 126-171) *)

(** The f-string of lines 142-161, with its holes [w], [h], [c1], [c2],
    [c3], [prompt[:80]] and [style]. *)
Definition svg_template (w h : Z) (c1 c2 c3 prompt80 style : pstr) : pstr :=
  lit "<svg xmlns='http://www.w3.org/2000/svg' width='" ++ dec w ++
  lit "' height='" ++ dec h ++ lit "'>" ++ nl ++
  lit "    <defs>" ++ nl ++
  lit "      <radialGradient id='g' cx='50%' cy='50%' r='70%'>" ++ nl ++
  lit "        <stop offset='0%' stop-color='" ++ c1 ++ lit "'/>" ++ nl ++
  lit "        <stop offset='50%' stop-color='" ++ c2 ++ lit "'/>" ++ nl ++
  lit "        <stop offset='100%' stop-color='" ++ c3 ++ lit "'/>" ++ nl ++
  lit "      </radialGradient>" ++ nl ++
  lit "      <filter id='f' x='-20%' y='-20%' width='140%' height='140%'>" ++ nl ++
  lit "        <feTurbulence type='fractalNoise' baseFrequency='0.012' numOctaves='3'/>" ++ nl ++
  lit "        <feColorMatrix type='saturate' values='1.2'/>" ++ nl ++
  lit "        <feBlend mode='overlay'/>" ++ nl ++
  lit "      </filter>" ++ nl ++
  lit "    </defs>" ++ nl ++
  lit "    <rect width='100%' height='100%' fill='url(#g)'/>" ++ nl ++
  lit "    <rect width='100%' height='100%' filter='url(#f)' opacity='0.35'/>" ++ nl ++
  lit "    <g font-family='Inter,Arial' font-size='28' fill='white' opacity='0.9'>" ++ nl ++
  lit "      <text x='50%' y='50%' text-anchor='middle'>" ++ prompt80 ++ lit "</text>" ++ nl ++
  lit "      <text x='50%' y='55%' text-anchor='middle' opacity='0.7'>style: " ++ style ++
  lit "</text>" ++ nl ++
  lit "    </g>" ++ nl ++
  lit "  </svg>".

Definition data_prefix : pstr := lit "data:image/svg+xml;base64,".

(** Lines 136-140: [w, h] from the aspect. *)
Definition aspect_canvas (aspect : pstr) : Z * Z :=
  if str_in aspect [lit "16:9"; lit "16-9"] then (1280, 720)
  else if str_in aspect [lit "3:4"; lit "3-4"] then (960, 1280)
  else (1024, 1024).

(** Lines 131-161: the markup, given the hex digest [seed]. *)
Definition svg_of_seed (prompt style aspect seed : pstr) : pstr :=
  let c1 := lit "#" ++ slice 0 6 seed in
  let c2 := lit "#" ++ slice 6 12 seed in
  let c3 := lit "#" ++ slice 12 18 seed in
  let '(w, h) := aspect_canvas aspect in
  svg_template w h c1 c2 c3 (firstn 80 prompt) style.

Definition _svg_placeholder (prompt style aspect : pstr) : res pstr :=
  (* seed = hashlib.sha256((prompt + style + aspect).encode()).hexdigest() *)
  seed_bytes <- encode (prompt ++ style ++ aspect);;
  let seed := Sha256.hexdigest seed_bytes in
  let svg := svg_of_seed prompt style aspect seed in
  (* base64.b64encode(svg.encode("utf-8")).decode("utf-8") *)
  svg_bytes <- encode svg;;
  let data := b64encode svg_bytes in
  Ok (data_prefix ++ data).

Record art_request := mk_art_request {
  req_prompt : pstr;
  req_style : option pstr;   (* Optional[str] = "dreamy" *)
  req_aspect : option pstr   (* Optional[str] = "1:1" *)
}.

Record art_response := mk_art_response {
  resp_image : pstr;
  resp_prompt : pstr;
  resp_style : pstr;
  resp_provider : pstr
}.

Definition generate_art (req : art_request) : res art_response :=
  let provider := lit "placeholder" in
  image_url <- _svg_placeholder (req_prompt req) (str_or (req_style req) (lit "dreamy"))
                                (str_or (req_aspect req) (lit "1:1"));;
  Ok (mk_art_response image_url (req_prompt req) (str_or (req_style req) (lit "dreamy")) provider).

(** Naive substring test, for concrete checks. *)
Fixpoint is_prefix (x y : list Z) : bool :=
  match x, y with
  | [], _ => true
  | a :: x', b :: y' => (a =? b) && is_prefix x' y'
  | _, [] => false
  end.
Fixpoint is_infix (x y : list Z) : bool :=
  is_prefix x y || match y with [] => false | _ :: y' => is_infix x y' end.

(** The opening tag of the markup, carrying the canvas size. *)
Definition svg_open (w h : Z) : pstr :=
  lit "<svg xmlns='http://www.w3.org/2000/svg' width='" ++ dec w ++
  lit "' height='" ++ dec h ++ lit "'>".

(** The size attributes, as they read in the markup. *)
Definition size_attrs (w h : Z) : pstr :=
  lit "width='" ++ dec w ++ lit "' height='" ++ dec h ++ lit "'".

(** The element that renders the prompt (line 158), up to its text. *)
Definition prompt_text_open : pstr :=
  lit "      <text x='50%' y='50%' text-anchor='middle'>".

(** The request of the end-to-end scenario. *)
Definition forest_request : art_request :=
  mk_art_request (alit "a glowing forest") (Some (alit "neon")) (Some (alit "16:9")).

(** The element that renders the style (line 159), up to its text. *)
Definition style_text_open : pstr :=
  lit "      <text x='50%' y='55%' text-anchor='middle' opacity='0.7'>style: ".

(** A character of base64's output: the alphabet or the padding [=]. *)
Definition is_b64_char (c : Z) : bool := existsb (Z.eqb c) b64_alphabet || (c =? 61).

(** ** Python floats and [float(x)] *)

(** A Python float: finite values are kept exact (rounding to 53 bits is
    not modelled; no claim depends on it), with infinities and NaN. *)
Inductive pyfloat := PFin (q : Q) | PInf (neg : bool) | PNaN.

(** Finite values at or beyond [2^1024 - 2^970] round to infinity. *)
Definition float_overflow_bound : Z := 2 ^ 1024 - 2 ^ 970.

(** Whitespace stripped by [float()] ([Py_UNICODE_ISSPACE]). *)
Definition py_isspace (c : Z) : bool :=
  ((9 <=? c) && (c <=? 13)) || ((28 <=? c) && (c <=? 32)) || (c =? 133) || (c =? 160) ||
  (c =? 5760) || ((8192 <=? c) && (c <=? 8202)) || (c =? 8232) || (c =? 8233) ||
  (c =? 8239) || (c =? 8287) || (c =? 12288).

Fixpoint lstrip (s : pstr) : pstr :=
  match s with c :: s' => if py_isspace c then lstrip s' else s | [] => [] end.
Definition strip (s : pstr) : pstr := rev (lstrip (rev (lstrip s))).

Definition is_digit (c : Z) : bool := (48 <=? c) && (c <=? 57).
Definition ascii_lower (c : Z) : Z := if (65 <=? c) && (c <=? 90) then c + 32 else c.

(** Digits after a first one: [(["_"] digit)*]. *)
Fixpoint digits_tail (s : pstr) : list Z * pstr :=
  match s with
  | c :: s' =>
      if is_digit c then let '(ds, r) := digits_tail s' in ((c - 48) :: ds, r)
      else if c =? 95 then
        match s' with
        | d :: s'' => if is_digit d then let '(ds, r) := digits_tail s'' in ((d - 48) :: ds, r)
                      else ([], s)
        | [] => ([], s)
        end
      else ([], s)
  | [] => ([], [])
  end.

(** [digitpart: digit (["_"] digit)*] *)
Definition digitpart (s : pstr) : option (list Z * pstr) :=
  match s with
  | c :: s' => if is_digit c then let '(ds, r) := digits_tail s' in Some ((c - 48) :: ds, r)
               else None
  | [] => None
  end.

(** [pointfloat | digitpart]: integer digits, fraction digits, rest. *)
Definition mantissa (s : pstr) : option (list Z * list Z * pstr) :=
  match digitpart s with
  | Some (ip, r) =>
      match r with
      | c :: r' => if c =? 46 then
                     match digitpart r' with
                     | Some (fp, r'') => Some (ip, fp, r'')
                     | None => Some (ip, [], r')
                     end
                   else Some (ip, [], r)
      | [] => Some (ip, [], r)
      end
  | None =>
      match s with
      | c :: r' => if c =? 46 then
                     match digitpart r' with
                     | Some (fp, r'') => Some ([], fp, r'')
                     | None => None
                     end
                   else None
      | [] => None
      end
  end.

Definition digits_value (ds : list Z) : Z := fold_left (fun acc d => acc * 10 + d) ds 0.

(** [exponent: ("e" | "E") ["+" | "-"] digitpart] *)
Definition exponent (s : pstr) : option (Z * pstr) :=
  match s with
  | c :: s' =>
      if ascii_lower c =? 101 then
        let '(neg, t) := match s' with
                         | d :: t' => if d =? 45 then (true, t') else if d =? 43 then (false, t')
                                      else (false, s')
                         | [] => (false, s')
                         end in
        match digitpart t with
        | Some (ds, r) => Some (if neg then - digits_value ds else digits_value ds, r)
        | None => None
        end
      else None
  | [] => None
  end.

Definition Qabs_ge (q : Q) (b : Z) : bool := Qle_bool (inject_Z b) (Qabs q).

(** The float denoted by sign, digits and exponent. *)
Definition make_float (neg : bool) (ip fp : list Z) (e : Z) : pyfloat :=
  let m := digits_value (ip ++ fp) in
  let k := e - Z.of_nat (length fp) in
  let q := if 0 <=? k then inject_Z (m * 10 ^ k) else Qred (Qmake m (Z.to_pos (10 ^ (- k)))) in
  if Qabs_ge q float_overflow_bound then PInf neg
  else PFin (if neg then Qopp q else q).

Definition str_lower (s : pstr) : pstr := map ascii_lower s.

(** [float(s)] on a [str]: [None] where Python raises [ValueError].
    Non-ASCII decimal digits (which [float()] also accepts) are not
    modelled. *)
Definition parse_float_str (s : pstr) : option pyfloat :=
  let t := strip s in
  let '(neg, u) := match t with
                   | c :: t' => if c =? 45 then (true, t') else if c =? 43 then (false, t') else (false, t)
                   | [] => (false, t)
                   end in
  let lu := str_lower u in
  if str_in lu [alit "inf"; alit "infinity"] then Some (PInf neg)
  else if str_eqb lu (alit "nan") then Some PNaN
  else match mantissa u with
       | Some (ip, fp, []) => Some (make_float neg ip fp 0)
       | Some (ip, fp, r) =>
           match exponent r with
           | Some (e, []) => Some (make_float neg ip fp e)
           | _ => None
           end
       | None => None
       end.

(** Values a store document can hold. *)
Inductive pyval :=
| VNone
| VBool (b : bool)
| VInt (z : Z)
| VFloat (f : pyfloat)
| VStr (s : pstr)
| VDatetime (t : Z)
| VObjectId (oid : Z)
| VOther.                 (* lists, nested documents, ... *)

(** [float(x)] *)
Definition py_float (v : pyval) : res pyfloat :=
  match v with
  | VBool b => Ok (PFin (if b then 1 else 0)%Q)
  | VInt z => if float_overflow_bound <=? Z.abs z
              then Raise (mk_exn OverflowError (alit "int too large to convert to float"))
              else Ok (PFin (inject_Z z))
  | VFloat f => Ok f
  | VStr s => match parse_float_str s with
              | Some f => Ok f
              | None => Raise (mk_exn ValueError (alit "could not convert string to float"))
              end
  | _ => Raise (mk_exn TypeError (alit "float() argument must be a string or a real number"))
  end.

Example float_12 : parse_float_str (alit "12") = Some (PFin 12%Q).
Proof. vm_compute. reflexivity. Qed.
Example float_underscores : parse_float_str (alit " 1_000.5e-1 ") = Some (PFin (2001 # 20)%Q).
Proof. vm_compute. reflexivity. Qed.
Example float_inf : parse_float_str (alit "-Infinity") = Some (PInf true).
Proof. vm_compute. reflexivity. Qed.
Example float_abc : parse_float_str (alit "abc") = None.
Proof. vm_compute. reflexivity. Qed.
Example float_bad_underscore : parse_float_str (alit "1__0") = None.
Proof. vm_compute. reflexivity. Qed.

(** ** Store documents and the store *)

(** A document as the driver returns it: a [dict] from field names. *)
Definition pydict := list (pstr * pyval).

Fixpoint dict_lookup (d : pydict) (k : pstr) : option pyval :=
  match d with
  | [] => None
  | (k', v) :: d' => if str_eqb k k' then Some v else dict_lookup d' k
  end.

(** [d.get(k)] and [d.get(k, default)] *)
Definition dict_get (d : pydict) (k : pstr) : pyval :=
  match dict_lookup d k with Some v => v | None => VNone end.
Definition dict_get_default (d : pydict) (k : pstr) (default : pyval) : pyval :=
  match dict_lookup d k with Some v => v | None => default end.

(** What iterating the result of [get_documents] yields: documents, then
    the end or an exception. *)
Inductive cursor :=
| CEnd
| CRaise (e : exn)
| CNext (d : pydict) (rest : cursor).

Fixpoint cursor_of (docs : list pydict) : cursor :=
  match docs with [] => CEnd | d :: ds => CNext d (cursor_of ds) end.

(** Modelled from the spec: the [database] module ([get_documents],
    [create_document]) is imported by [main.py] but is not in src/. Per the
    spec it is an opaque document collection: [get_documents] returns the
    documents of a collection matching a filter, or raises; [create_document]
    returns the newly assigned identifier as text, or raises. [None] stands
    for a module that cannot be imported. *)
Record store := mk_store {
  get_documents : pstr -> pydict -> res cursor;
  create_document : pstr -> pydict -> res pstr
}.

Definition import_database (db : option store) : res store :=
  match db with
  | Some st => Ok st
  | None => Raise (mk_exn ImportError (alit "No module named 'database'"))
  end.

(** ** Pydantic models (lines 20-30) *)

Record product_in := mk_product_in {
  in_title : pstr;
  in_description : option pstr;
  in_price : pyfloat;
  in_category : pstr;
  in_image : option pstr
}.

Record product_out := mk_product_out {
  p_id : option pstr;
  p_title : pstr;
  p_description : option pstr;
  p_price : pyfloat;
  p_category : pstr;
  p_image : option pstr;
  p_created_at : option Z
}.

Definition validation_error : exn := mk_exn ValidationError (alit "validation error for ProductOut").

(** Field validators of pydantic (lax mode) on the values a document holds. *)
Definition v_str (v : pyval) : res pstr :=
  match v with VStr s => Ok s | _ => Raise validation_error end.

Definition v_opt_str (v : pyval) : res (option pstr) :=
  match v with VNone => Ok None | VStr s => Ok (Some s) | _ => Raise validation_error end.

(** [price: float = Field(..., ge=0)] applied to a Python float. *)
Definition v_price (f : pyfloat) : res pyfloat :=
  match f with
  | PFin q => if Qle_bool 0 q then Ok f else Raise validation_error
  | PInf false => Ok f
  | PInf true | PNaN => Raise validation_error
  end.

Definition opt_val (o : option pstr) : pyval :=
  match o with Some s => VStr s | None => VNone end.

(** [product.model_dump()] *)
Definition model_dump (p : product_in) : pydict :=
  [(alit "title", VStr (in_title p)); (alit "description", opt_val (in_description p));
   (alit "price", VFloat (in_price p)); (alit "category", VStr (in_category p));
   (alit "image", opt_val (in_image p))].

(** ** The catalog handlers (lines 91-123) *)

Section Catalog.

(** [str(x)] of the store's identifier, and pydantic's [datetime] validator
    on a value other than [None]; no property depends on them. *)
Variable py_str_of : pyval -> pstr.
Variable parse_datetime : pyval -> option Z.

Definition v_opt_datetime (v : pyval) : res (option Z) :=
  match v with
  | VNone => Ok None
  | _ => match parse_datetime v with Some t => Ok (Some t) | None => Raise validation_error end
  end.

(** The body of the loop: [ProductOut(id=str(d.get("_id")), ...)]. The
    keyword arguments are evaluated first ([float(...)] may raise), then
    the model is validated. *)
Definition doc_to_product (d : pydict) : res product_out :=
  let id := py_str_of (dict_get d (alit "_id")) in
  let title := dict_get d (alit "title") in
  let description := dict_get d (alit "description") in
  price <- py_float (dict_get_default d (alit "price") (VInt 0));;
  let category := dict_get_default d (alit "category") (VStr (alit "craft")) in
  let image := dict_get d (alit "image") in
  let created_at := dict_get d (alit "created_at") in
  t <- v_str title;;
  de <- v_opt_str description;;
  pr <- v_price price;;
  ca <- v_str category;;
  im <- v_opt_str image;;
  cr <- v_opt_datetime created_at;;
  Ok (mk_product_out (Some id) t de pr ca im cr).

(** [for d in docs: result.append(...)] *)
Fixpoint append_products (docs : cursor) (result : list product_out) : res (list product_out) :=
  match docs with
  | CEnd => Ok result
  | CRaise e => Raise e
  | CNext d rest => p <- doc_to_product d;; append_products rest (result ++ [p])
  end.

Definition list_products (db : option store) : res (list product_out) :=
  try_except
    (st <- import_database db;;
     docs <- get_documents st (alit "product") [];;
     append_products docs [])
    (fun _ => Ok []).

End Catalog.

Definition create_product (db : option store) (product : product_in) : res pstr :=
  try_except
    (st <- import_database db;;
     let product_dict := model_dump product in
     new_id <- create_document st (alit "product") product_dict;;
     Ok new_id)
    (fun e => Raise (mk_exn (HTTPException 500) (alit "Database not available: " ++ exn_msg e))).

(** ** The diagnostic probe [/test] (lines 58-88) *)

(** The marks of the status texts: U+2705, U+274C, and U+26A0 U+FE0F. *)
Definition check_mark : pstr := [9989].
Definition cross_mark : pstr := [10060].
Definition warning_mark : pstr := [9888; 65039].

(** The [response] dict. Its six keys are set once, at line 60, and only
    their values change afterwards. *)
Record test_response := mk_test_response {
  t_backend : pstr;
  t_database : pstr;
  t_database_url : option pstr;
  t_database_name : option pstr;
  t_connection_status : pstr;
  t_collections : list pstr
}.

Definition initial_response : test_response :=
  mk_test_response (check_mark ++ lit " Running") (cross_mark ++ lit " Not Available")
    None None (lit "Not Connected") [].

(** [response[k] = v] for each key. *)
Definition set_database (v : pstr) (r : test_response) : test_response :=
  mk_test_response (t_backend r) v (t_database_url r) (t_database_name r)
    (t_connection_status r) (t_collections r).
Definition set_database_url (v : option pstr) (r : test_response) : test_response :=
  mk_test_response (t_backend r) (t_database r) v (t_database_name r)
    (t_connection_status r) (t_collections r).
Definition set_database_name (v : option pstr) (r : test_response) : test_response :=
  mk_test_response (t_backend r) (t_database r) (t_database_url r) v
    (t_connection_status r) (t_collections r).
Definition set_connection_status (v : pstr) (r : test_response) : test_response :=
  mk_test_response (t_backend r) (t_database r) (t_database_url r) (t_database_name r)
    v (t_collections r).
Definition set_collections (v : list pstr) (r : test_response) : test_response :=
  mk_test_response (t_backend r) (t_database r) (t_database_url r) (t_database_name r)
    (t_connection_status r) v.

(** [os.getenv]: the process environment. *)
Definition environ := pstr -> option pstr.

(** The truth value of [os.getenv(k)]: [None] and [""] are falsy. *)
Definition env_truthy (o : option pstr) : bool :=
  match o with Some (_ :: _) => true | _ => false end.

(** ["✅ Set" if os.getenv(k) else "❌ Not Set"] *)
Definition env_flag (env : environ) (k : pstr) : pstr :=
  if env_truthy (env k) then check_mark ++ lit " Set" else cross_mark ++ lit " Not Set".

(** Modelled from the spec: the [db] handle of the [database] module, which
    is not in src/. [db_name] is what reading its [name] attribute gives:
    [None] when it has no such attribute, else its value or an exception;
    [list_collection_names] is the outcome of the method call. *)
Record db_handle := mk_db_handle {
  db_name : option (res pstr);
  list_collection_names : res (list pstr)
}.

(** [getattr(db, "name", None)] *)
Definition getattr_name (h : db_handle) : res (option pstr) :=
  match db_name h with
  | None => Ok None
  | Some r => n <- r;; Ok (Some n)
  end.

(** The handler mutates [response] in place, and an exception leaves the
    updates made before it: a state and exception monad over the dict. *)
Definition probe (A : Type) := test_response -> res A * test_response.

Definition pret {A} (a : A) : probe A := fun r => (Ok a, r).
Definition pbind {A B} (m : probe A) (k : A -> probe B) : probe B :=
  fun r => let '(x, r') := m r in
           match x with Ok a => k a r' | Raise e => (Raise e, r') end.
Definition plift {A} (m : res A) : probe A := fun r => (m, r).
Definition pset (f : test_response -> test_response) : probe unit := fun r => (Ok tt, f r).
Definition ptry {A} (m : probe A) (h : exn -> probe A) : probe A :=
  fun r => let '(x, r') := m r in
           match x with Ok a => (Ok a, r') | Raise e => h e r' end.

Notation "x <~ m ;; k" := (pbind m (fun x => k))
  (at level 61, m at next level, right associativity).
Notation "m >>> k" := (pbind m (fun _ => k))
  (at level 61, right associativity).

(** Lines 70-82. [db_module] is the outcome of [from database import db]. *)
Definition test_body (env : environ) (db_module : res (option db_handle)) : probe unit :=
  db <~ plift db_module ;;
  match db with
  | None => pret tt
  | Some h =>
      pset (set_database (check_mark ++ lit " Available")) >>>
      pset (set_database_url (Some (env_flag env (alit "DATABASE_URL")))) >>>
      name <~ plift (getattr_name h) ;;
      pset (set_database_name (Some (str_or name (check_mark ++ lit " Connected")))) >>>
      pset (set_connection_status (lit "Connected")) >>>
      ptry (collections <~ plift (list_collection_names h) ;;
            pset (set_collections (firstn 10 collections)) >>>
            pset (set_database (check_mark ++ lit " Connected & Working")))
           (fun e => pset (set_database (warning_mark ++ lit " Connected but Error: " ++
                                         firstn 80 (exn_msg e))))
  end.

Definition test_database (env : environ) (db_module : res (option db_handle)) : test_response :=
  let '(_, response) :=
    ptry (test_body env db_module)
      (fun e => pset (set_database (cross_mark ++ lit " Error: " ++ firstn 80 (exn_msg e))))
      initial_response in
  let response := set_database_url (Some (env_flag env (alit "DATABASE_URL"))) response in
  set_database_name (Some (env_flag env (alit "DATABASE_NAME"))) response.

(** ** Start-up (lines 174-177): [port = int(os.getenv("PORT", 8000))] *)

(** [int(s)] on a [str], base 10: surrounding whitespace, a sign, then
    digits with single underscores between them; [None] where Python
    raises [ValueError]. As for [float()], non-ASCII decimal digits are not
    modelled, nor is the limit of 4300 digits of Python 3.11 and later. *)
Definition parse_int_str (s : pstr) : option Z :=
  let t := strip s in
  let '(neg, u) := match t with
                   | c :: t' => if c =? 45 then (true, t') else if c =? 43 then (false, t') else (false, t)
                   | [] => (false, t)
                   end in
  match digitpart u with
  | Some (ds, []) => Some (if neg then - digits_value ds else digits_value ds)
  | _ => None
  end.

Definition main_port (env : environ) : res Z :=
  match env (alit "PORT") with
  | None => Ok 8000
  | Some s => match parse_int_str s with
              | Some n => Ok n
              | None => Raise (mk_exn ValueError (alit "invalid literal for int() with base 10"))
              end
  end.

(** Sample instances of the driver-dependent conversions, for concrete
    inputs. *)
Definition demo_str_of (v : pyval) : pstr :=
  match v with VObjectId n => dec n | VStr s => s | _ => alit "None" end.
Definition demo_datetime (v : pyval) : option Z :=
  match v with VDatetime t => Some t | _ => None end.

(** What [list_products] surfaces for a document, as the claims on field
    defaulting state it. *)
Definition surfaced_defaults (d : pydict) (p : product_out) : Prop :=
  (dict_lookup d (alit "category") = None -> p_category p = alit "craft") /\
  (dict_lookup d (alit "price") = None -> p_price p = PFin 0) /\
  (dict_lookup d (alit "price") = Some (VStr (alit "12")) -> p_price p = PFin 12) /\
  (forall v f, dict_lookup d (alit "price") = Some v -> py_float v = Ok f -> p_price p = f).

(** A store whose every call raises. *)
Definition failing_store (msg : pstr) : store :=
  mk_store (fun _ _ => Raise (mk_exn StoreError msg)) (fun _ _ => Raise (mk_exn StoreError msg)).

(** A store holding the given documents, whose writes raise. *)
Definition docs_store (docs : list pydict) : store :=
  mk_store (fun _ _ => Ok (cursor_of docs))
           (fun _ _ => Raise (mk_exn StoreError (alit "not writable"))).

(** ** Properties *)

Lemma bind_Ok_inv {A B} (m : res A) (k : A -> res B) (b : B) :
  bind m k = Ok b -> exists a, m = Ok a /\ k a = Ok b.
Proof. destruct m as [a|e]; simpl; [eauto | discriminate]. Qed.

Lemma Forall2_in_left {A B} (R : A -> B -> Prop) l1 l2 x :
  Forall2 R l1 l2 -> In x l1 -> exists y, R x y.
Proof.
  induction 1 as [|a b l1' l2' Hab _ IH]; simpl; [contradiction|].
  intros [<- | Hin]; eauto.
Qed.

Lemma append_products_cursor_of f g docs acc :
  (exists ps, Forall2 (fun d p => doc_to_product f g d = Ok p) docs ps /\
              append_products f g (cursor_of docs) acc = Ok (acc ++ ps)) \/
  (exists d e, In d docs /\ doc_to_product f g d = Raise e) /\
  (exists e', append_products f g (cursor_of docs) acc = Raise e').
Proof.
  revert acc; induction docs as [|d docs IH]; intros acc; simpl.
  - left; exists []; split; [constructor | now rewrite app_nil_r].
  - destruct (doc_to_product f g d) as [p|e] eqn:Hd; simpl.
    + destruct (IH (acc ++ [p])) as [(ps & Hps & Hrun) | ((d' & e & Hin & Hd') & Hrun)].
      * left; exists (p :: ps); split; [now constructor|].
        rewrite Hrun, <- app_assoc; reflexivity.
      * right; split; [exists d', e; auto | exact Hrun].
    + right; split; [exists d, e; auto | eauto].
Qed.

(** Once a document of the result set fails to map, the whole call
    degrades to the empty list. *)
Lemma list_products_doc_raises f g st docs d e :
  get_documents st (alit "product") [] = Ok (cursor_of docs) ->
  In d docs -> doc_to_product f g d = Raise e ->
  list_products f g (Some st) = Ok [].
Proof.
  intros Hget Hin Hd; unfold list_products; simpl; rewrite Hget; simpl.
  destruct (append_products_cursor_of f g docs []) as [(ps & Hps & _) | (_ & e' & Hrun)].
  - exfalso. destruct (Forall2_in_left _ _ _ _ Hps Hin) as (p & Hp); congruence.
  - now rewrite Hrun.
Qed.

Lemma doc_to_product_fields f g d p :
  doc_to_product f g d = Ok p ->
  py_float (dict_get_default d (alit "price") (VInt 0)) = Ok (p_price p) /\
  v_str (dict_get_default d (alit "category") (VStr (alit "craft"))) = Ok (p_category p).
Proof.
  unfold doc_to_product; intros H.
  apply bind_Ok_inv in H as (pr & Hpr & H).
  apply bind_Ok_inv in H as (t & _ & H).
  apply bind_Ok_inv in H as (de & _ & H).
  apply bind_Ok_inv in H as (pr' & Hpr' & H).
  apply bind_Ok_inv in H as (ca & Hca & H).
  apply bind_Ok_inv in H as (im & _ & H).
  apply bind_Ok_inv in H as (cr & _ & H).
  injection H as <-; simpl.
  destruct pr as [q|[]|]; simpl in Hpr'; try discriminate;
    try (destruct (Qle_bool 0 q)); try discriminate; injection Hpr' as <-; auto.
Qed.

Lemma py_float_12 : py_float (VStr (alit "12")) = Ok (PFin 12).
Proof. vm_compute. reflexivity. Qed.

Lemma doc_to_product_defaults f g d p :
  doc_to_product f g d = Ok p -> surfaced_defaults d p.
Proof.
  intros H; apply doc_to_product_fields in H as [Hpr Hca].
  unfold dict_get_default in Hpr, Hca; repeat split.
  - intros Hn; rewrite Hn in Hca; simpl in Hca; congruence.
  - intros Hn; rewrite Hn in Hpr; simpl in Hpr; injection Hpr as <-; reflexivity.
  - intros Hs; rewrite Hs, py_float_12 in Hpr; injection Hpr as <-; reflexivity.
  - intros v fl Hv Hf; rewrite Hv in Hpr; congruence.
Qed.

(** *** Catalog: reads degrade, writes fail loudly *)

(** C2: for every store behaviour (missing module, raising query,
    raising iteration, malformed documents), [list_products] returns a
    list and never raises; a missing module or a raising query yields the
    empty list. *)
Theorem list_products_never_raises f g :
  (forall db, exists l, list_products f g db = Ok l) /\
  list_products f g None = Ok [] /\
  (forall st e, get_documents st (alit "product") [] = Raise e ->
                list_products f g (Some st) = Ok []).
Proof.
  split; [|split].
  - intros db; unfold list_products, try_except.
    destruct (_ <- import_database db;; _) as [l|e]; eauto.
  - reflexivity.
  - intros st e Hget; unfold list_products; simpl; rewrite Hget; reflexivity.
Qed.

Lemma list_products_never_raises_witness :
  get_documents (failing_store (alit "connection refused")) (alit "product") [] =
    Raise (mk_exn StoreError (alit "connection refused")) /\
  list_products demo_str_of demo_datetime (Some (failing_store (alit "connection refused"))) = Ok [].
Proof.
  split; [reflexivity|].
  apply (proj2 (proj2 (list_products_never_raises demo_str_of demo_datetime))
           (failing_store (alit "connection refused"))
           (mk_exn StoreError (alit "connection refused"))).
  reflexivity.
Defined.

(** C3: when the store's write raises, [create_product] raises
    [HTTPException(status_code=500, detail="Database not available: ...")]
    and returns no identifier; when it succeeds, the new identifier is
    returned as text. *)
Theorem create_product_propagates_failure st p :
  (forall e, create_document st (alit "product") (model_dump p) = Raise e ->
     create_product (Some st) p =
       Raise (mk_exn (HTTPException 500) (alit "Database not available: " ++ exn_msg e)) /\
     forall id, create_product (Some st) p <> Ok id) /\
  (forall id, create_document st (alit "product") (model_dump p) = Ok id ->
     create_product (Some st) p = Ok id).
Proof.
  split.
  - intros e He; unfold create_product; simpl; rewrite He; simpl.
    split; [reflexivity | discriminate].
  - intros id Hid; unfold create_product; simpl; rewrite Hid; reflexivity.
Qed.

Definition sample_product : product_in :=
  mk_product_in (alit "Clay mug") None (PFin 12) (alit "craft") None.

Lemma create_product_propagates_failure_witness :
  create_product (Some (failing_store (alit "timeout"))) sample_product =
    Raise (mk_exn (HTTPException 500) (alit "Database not available: timeout")).
Proof.
  apply (proj1 (create_product_propagates_failure (failing_store (alit "timeout")) sample_product)
           (mk_exn StoreError (alit "timeout"))).
  reflexivity.
Defined.

(** C7: the detail of the 500 response carries [str(e)] in full; a store
    error message of 200 characters gives a detail of 224 characters. *)
Theorem create_product_detail_not_truncated :
  exists e, create_product (Some (failing_store (repeat 120 200))) sample_product = Raise e /\
            exn_kind e = HTTPException 500 /\
            length (exn_msg e) = 224%nat.
Proof. eexists; split; [reflexivity | split; vm_compute; reflexivity]. Qed.

(** C10: the mapping of the result set is all-or-nothing: if any one
    returned document fails to map, the whole call returns the empty list,
    dropping the well-formed documents with it. *)
Theorem list_products_all_or_nothing f g st docs d e :
  get_documents st (alit "product") [] = Ok (cursor_of docs) ->
  In d docs -> doc_to_product f g d = Raise e ->
  list_products f g (Some st) = Ok [].
Proof. apply list_products_doc_raises. Qed.

Definition good_doc : pydict :=
  [(alit "_id", VObjectId 7); (alit "title", VStr (alit "Vase")); (alit "price", VInt 30)].
Definition bad_price_doc : pydict :=
  [(alit "_id", VObjectId 8); (alit "title", VStr (alit "Bowl")); (alit "price", VStr (alit "abc"))].
Definition untitled_doc : pydict :=
  [(alit "_id", VObjectId 9); (alit "price", VInt 5)].

Lemma list_products_all_or_nothing_witness :
  (exists p, doc_to_product demo_str_of demo_datetime good_doc = Ok p) /\
  list_products demo_str_of demo_datetime (Some (docs_store [good_doc; bad_price_doc])) = Ok [] /\
  list_products demo_str_of demo_datetime (Some (docs_store [good_doc; untitled_doc])) = Ok [].
Proof.
  split; [eexists; vm_compute; reflexivity|]; split.
  - apply (list_products_all_or_nothing demo_str_of demo_datetime
             (docs_store [good_doc; bad_price_doc]) [good_doc; bad_price_doc] bad_price_doc
             (mk_exn ValueError (alit "could not convert string to float")));
      [reflexivity | simpl; auto | vm_compute; reflexivity].
  - apply (list_products_all_or_nothing demo_str_of demo_datetime
             (docs_store [good_doc; untitled_doc]) [good_doc; untitled_doc] untitled_doc
             validation_error);
      [reflexivity | simpl; auto | vm_compute; reflexivity].
Defined.

Lemma doc_to_product_nonnumeric_price f g d s :
  dict_lookup d (alit "price") = Some (VStr s) -> parse_float_str s = None ->
  exists e, doc_to_product f g d = Raise e.
Proof.
  intros Hl Hp; unfold doc_to_product, dict_get_default; rewrite Hl; simpl; rewrite Hp.
  eexists; reflexivity.
Qed.

Definition nonnumeric_doc : pydict :=
  [(alit "_id", VObjectId 4); (alit "title", VStr (alit "Scarf")); (alit "price", VStr (alit "n/a"))].

(** C6, as stated, fails: a document whose price is a non-numeric string
    and which has no category is not surfaced with price 0 (and category
    "craft"); the call returns the empty list. *)
Lemma list_products_nonnumeric_price_counterexample :
  list_products demo_str_of demo_datetime (Some (docs_store [nonnumeric_doc])) = Ok [] /\
  ~ (exists l p, list_products demo_str_of demo_datetime (Some (docs_store [nonnumeric_doc])) = Ok l /\
                 In p l /\ p_price p = PFin 0 /\ p_category p = alit "craft").
Proof.
  assert (H : list_products demo_str_of demo_datetime (Some (docs_store [nonnumeric_doc])) = Ok [])
    by (vm_compute; reflexivity).
  split; [exact H|].
  intros (l & p & Hl & Hin & _); rewrite H in Hl; injection Hl as <-; contradiction.
Qed.

(** C6 (amended): every product that [list_products] surfaces for a
    document has category "craft" when the document has no category field,
    and price [float(price)], with [0.0] when the field is absent (the
    numeric string "12" gives [12.0]). A price that [float()] cannot
    convert surfaces nothing: the whole call returns the empty list. *)
Theorem list_products_field_defaulting f g st docs l :
  get_documents st (alit "product") [] = Ok (cursor_of docs) ->
  list_products f g (Some st) = Ok l ->
  (Forall2 (fun d p => doc_to_product f g d = Ok p /\ surfaced_defaults d p) docs l \/
   (l = [] /\ exists d e, In d docs /\ doc_to_product f g d = Raise e)) /\
  (forall d s, In d docs -> dict_lookup d (alit "price") = Some (VStr s) ->
     parse_float_str s = None -> l = []).
Proof.
  intros Hget Hl; split.
  - destruct (append_products_cursor_of f g docs []) as [(ps & Hps & Hrun) | (Hbad & e' & Hrun)];
      unfold list_products in Hl; simpl in Hl; rewrite Hget in Hl; simpl in Hl;
      rewrite Hrun in Hl; simpl in Hl; injection Hl as <-.
    + left; revert Hps; apply Forall2_impl.
      intros d p Hp; split; [exact Hp | exact (doc_to_product_defaults f g d p Hp)].
    + right; split; [reflexivity | exact Hbad].
  - intros d s Hin Hs Hp.
    destruct (doc_to_product_nonnumeric_price f g d s Hs Hp) as [e He].
    rewrite (list_products_doc_raises f g st docs d e Hget Hin He) in Hl; congruence.
Qed.

Definition doc12 : pydict :=
  [(alit "_id", VObjectId 3); (alit "title", VStr (alit "Bowl")); (alit "price", VStr (alit "12"))].
Definition product12 : product_out :=
  mk_product_out (Some (dec 3)) (alit "Bowl") None (PFin 12) (alit "craft") None None.

Lemma list_products_field_defaulting_witness :
  list_products demo_str_of demo_datetime (Some (docs_store [doc12])) = Ok [product12] /\
  ((Forall2 (fun d p => doc_to_product demo_str_of demo_datetime d = Ok p /\ surfaced_defaults d p)
      [doc12] [product12] \/
    ([product12] = [] /\ exists d e, In d [doc12] /\ doc_to_product demo_str_of demo_datetime d = Raise e)) /\
   (forall d s, In d [doc12] -> dict_lookup d (alit "price") = Some (VStr s) ->
     parse_float_str s = None -> [product12] = [])).
Proof.
  split; [vm_compute; reflexivity|].
  apply (list_products_field_defaulting demo_str_of demo_datetime (docs_store [doc12]) [doc12] [product12]);
    [reflexivity | vm_compute; reflexivity].
Defined.

(** *** The generator: encoding facts *)

Definition zseq (n : nat) : list Z := map Z.of_nat (seq 0 n).

(** A boolean property checked on [0 .. n-1] holds on the whole range. *)
Lemma check_range (P : Z -> bool) (n : nat) :
  forallb P (zseq n) = true -> forall x, 0 <= x < Z.of_nat n -> P x = true.
Proof.
  intros H x Hx; rewrite forallb_forall in H; apply H.
  unfold zseq; apply in_map_iff; exists (Z.to_nat x); split; [lia|].
  apply in_seq; lia.
Qed.

Definition is_byte (b : Z) : Prop := 0 <= b < 256.

Lemma lor_byte a b : is_byte a -> is_byte b -> is_byte (Z.lor a b).
Proof.
  unfold is_byte; intros Ha Hb; split; [apply Z.lor_nonneg; lia|].
  destruct (Z.eq_dec (Z.lor a b) 0) as [->|Hn]; [lia|].
  assert (0 < Z.lor a b) by (assert (0 <= Z.lor a b) by (apply Z.lor_nonneg; lia); lia).
  apply (Z.log2_lt_pow2 _ 8); [assumption|].
  rewrite Z.log2_lor by lia.
  assert (Z.log2 a < 8).
  { destruct (Z.eq_dec a 0) as [->|]; [simpl; lia|]. apply Z.log2_lt_pow2; lia. }
  assert (Z.log2 b < 8).
  { destruct (Z.eq_dec b 0) as [->|]; [simpl; lia|]. apply Z.log2_lt_pow2; lia. }
  lia.
Qed.

Lemma land63_byte c : is_byte (Z.land c 63).
Proof.
  unfold is_byte; change 63 with (Z.ones 6); rewrite Z.land_ones by lia.
  pose proof (Z.mod_pos_bound c (2 ^ 6)); simpl in *; lia.
Qed.

Lemma shiftr_byte c k m :
  0 <= c < 2 ^ m -> 0 <= k <= m -> m - k <= 8 -> is_byte (Z.shiftr c k).
Proof.
  intros Hc Hk Hm; rewrite Z.shiftr_div_pow2 by lia; unfold is_byte.
  assert (0 < 2 ^ k) by (apply Z.pow_pos_nonneg; lia).
  split; [apply Z.div_pos; lia|].
  apply Z.div_lt_upper_bound; [lia|].
  apply Z.lt_le_trans with (2 ^ m); [lia|].
  replace m with (k + (m - k)) at 1 by lia.
  rewrite Z.pow_add_r by lia.
  apply Z.mul_le_mono_nonneg_l; [lia|].
  change 256 with (2 ^ 8); apply Z.pow_le_mono_r; lia.
Qed.

Ltac forall_list :=
  repeat match goal with
         | |- Forall _ [] => apply Forall_nil
         | |- Forall _ (_ :: _) => apply Forall_cons
         end.

Lemma some_inj {A} (x y : A) : Some x = Some y -> x = y.
Proof. congruence. Qed.

Lemma utf8_cp_bytes c bs :
  valid_cp c = true -> utf8_cp c = Some bs -> Forall is_byte bs.
Proof.
  unfold valid_cp, utf8_cp, is_surrogate; intros Hv Hc.
  apply andb_true_iff in Hv as [Hv _]; apply andb_true_iff in Hv as [H0 H1].
  apply Z.leb_le in H0; apply Z.leb_le in H1.
  assert (B : forall k, is_byte k -> is_byte (Z.lor 128 k)) by (intros; apply lor_byte; [unfold is_byte; lia | assumption]).
  destruct (c <? 128) eqn:E1.
  { apply some_inj in Hc; subst bs; apply Z.ltb_lt in E1; forall_list; unfold is_byte; lia. }
  destruct (c <? 2048) eqn:E2.
  { apply some_inj in Hc; subst bs; apply Z.ltb_lt in E2.
    forall_list; [apply lor_byte; [unfold is_byte; lia | apply (shiftr_byte c 6 11); lia]
                        | apply B, land63_byte]. }
  destruct (c <? 65536) eqn:E3.
  { destruct ((55296 <=? c) && (c <=? 57343)); [discriminate|].
    apply some_inj in Hc; subst bs; apply Z.ltb_lt in E3.
    forall_list; [apply lor_byte; [unfold is_byte; lia | apply (shiftr_byte c 12 16); lia]
                        | apply B, land63_byte | apply B, land63_byte]. }
  apply some_inj in Hc; subst bs.
  forall_list; [apply lor_byte; [unfold is_byte; lia | apply (shiftr_byte c 18 21); lia]
                      | apply B, land63_byte | apply B, land63_byte | apply B, land63_byte].
Qed.

Lemma encode_app a b :
  encode (a ++ b) = (x <- encode a;; y <- encode b;; Ok (x ++ y)).
Proof.
  induction a as [|c a IH]; simpl.
  - destruct (encode b); reflexivity.
  - destruct (utf8_cp c) as [bs|]; [|reflexivity].
    rewrite IH; destruct (encode a); simpl; [|reflexivity].
    destruct (encode b); simpl; [rewrite app_assoc|]; reflexivity.
Qed.

Lemma encode_valid s :
  valid_str s = true -> exists bs, encode s = Ok bs /\ Forall is_byte bs.
Proof.
  induction s as [|c s IH]; simpl; intros Hv.
  - exists []; auto.
  - apply andb_true_iff in Hv as [Hc Hs].
    destruct (utf8_cp c) as [cb|] eqn:Ec.
    + destruct (IH Hs) as (bs & -> & Hb); simpl.
      exists (cb ++ bs); split; [reflexivity|].
      apply Forall_app; split; [exact (utf8_cp_bytes c cb Hc Ec) | exact Hb].
    + exfalso; unfold valid_cp, utf8_cp in *.
      destruct (c <? 128), (c <? 2048), (c <? 65536), (is_surrogate c);
        simpl in *; try discriminate; rewrite andb_false_r in Hc; discriminate.
Qed.

Lemma valid_str_app a b : valid_str (a ++ b) = valid_str a && valid_str b.
Proof. apply forallb_app. Qed.

Lemma valid_str_firstn n s : valid_str s = true -> valid_str (firstn n s) = true.
Proof.
  rewrite <- (firstn_skipn n s) at 1; rewrite valid_str_app.
  intros H; apply andb_true_iff in H; tauto.
Qed.

Lemma valid_str_skipn n s : valid_str s = true -> valid_str (skipn n s) = true.
Proof.
  rewrite <- (firstn_skipn n s) at 1; rewrite valid_str_app.
  intros H; apply andb_true_iff in H; tauto.
Qed.

(** *** Base64 round trip *)

Lemma b64_char_index i : 0 <= i < 64 -> b64_index (b64_char i) = Some i.
Proof.
  intros Hi.
  pose proof (check_range (fun i => match b64_index (b64_char i) with
                                    | Some j => j =? i | None => false end) 64
                          ltac:(vm_compute; reflexivity) i Hi) as H.
  simpl in H; destruct (b64_index (b64_char i)) as [j|]; [|discriminate].
  apply Z.eqb_eq in H; subst; reflexivity.
Qed.

Lemma b64_char_not_pad i : 0 <= i < 64 -> (b64_char i =? 61) = false.
Proof.
  intros Hi.
  pose proof (check_range (fun i => negb (b64_char i =? 61)) 64
                          ltac:(vm_compute; reflexivity) i Hi) as H.
  simpl in H; destruct (b64_char i =? 61); [discriminate | reflexivity].
Qed.

Lemma sextet_range n k : 0 <= n / k mod 64 < 64.
Proof. apply Z.mod_pos_bound; lia. Qed.

Lemma b64_group3 b0 b1 b2 : is_byte b0 -> is_byte b1 -> is_byte b2 ->
  let n := b0 * 65536 + b1 * 256 + b2 in
  0 <= n / 262144 < 64 /\
  n / 262144 * 262144 + n / 4096 mod 64 * 4096 + n / 64 mod 64 * 64 + n mod 64 = n /\
  n / 65536 = b0 /\ n / 256 mod 256 = b1 /\ n mod 256 = b2.
Proof.
  intros H0 H1 H2; cbv zeta; unfold is_byte in *.
  repeat split; Z.div_mod_to_equations; lia.
Qed.

Lemma b64_group2 b0 b1 : is_byte b0 -> is_byte b1 ->
  let n := b0 * 65536 + b1 * 256 in
  0 <= n / 262144 < 64 /\
  n / 262144 * 262144 + n / 4096 mod 64 * 4096 + n / 64 mod 64 * 64 = n /\
  n / 65536 = b0 /\ n / 256 mod 256 = b1.
Proof.
  intros H0 H1; cbv zeta; unfold is_byte in *.
  repeat split; Z.div_mod_to_equations; lia.
Qed.

Lemma b64_group1 b0 : is_byte b0 ->
  let n := b0 * 65536 in
  0 <= n / 262144 < 64 /\
  (n / 262144 * 262144 + n / 4096 mod 64 * 4096) / 65536 = b0.
Proof.
  intros H0; cbv zeta; unfold is_byte in *.
  repeat split; Z.div_mod_to_equations; lia.
Qed.

Arguments b64_char : simpl never.
Arguments b64_index : simpl never.

Theorem b64_roundtrip bs : Forall is_byte bs -> b64decode (b64encode bs) = Some bs.
Proof.
  remember (length bs) as len eqn:Hlen; revert bs Hlen.
  induction len as [len IH] using (well_founded_induction lt_wf).
  intros bs -> Hb.
  destruct bs as [|b0 [|b1 [|b2 rest]]].
  - reflexivity.
  - apply Forall_cons_iff in Hb as [H0 _].
    destruct (b64_group1 b0 H0) as [Hr Hv].
    cbn [b64encode b64decode].
    rewrite (b64_char_index _ Hr), (b64_char_index _ (sextet_range _ _)).
    cbn [obind]; rewrite Z.eqb_refl; cbn; rewrite Hv; reflexivity.
  - apply Forall_cons_iff in Hb as [H0 Hb]; apply Forall_cons_iff in Hb as [H1 _].
    destruct (b64_group2 b0 b1 H0 H1) as (Hr & Hn & Hv0 & Hv1).
    cbn [b64encode b64decode].
    rewrite (b64_char_index _ Hr), (b64_char_index _ (sextet_range _ _)).
    cbn [obind]; rewrite Z.eqb_refl, (b64_char_not_pad _ (sextet_range _ _)).
    cbn [andb length Nat.eqb].
    rewrite (b64_char_index _ (sextet_range _ _)); cbn [obind].
    rewrite Hn, Hv0, Hv1; reflexivity.
  - apply Forall_cons_iff in Hb as [H0 Hb]; apply Forall_cons_iff in Hb as [H1 Hb];
      apply Forall_cons_iff in Hb as [H2 Hrest].
    destruct (b64_group3 b0 b1 b2 H0 H1 H2) as (Hr & Hn & Hv0 & Hv1 & Hv2).
    cbn [b64encode b64decode app].
    rewrite (b64_char_index _ Hr), (b64_char_index _ (sextet_range _ _)).
    cbn [obind]; rewrite (b64_char_not_pad _ (Z.mod_pos_bound _ 64 ltac:(lia))).
    cbn [andb].
    rewrite (b64_char_index _ (sextet_range _ _)), (b64_char_index _ (Z.mod_pos_bound _ 64 ltac:(lia))).
    cbn [obind].
    rewrite (IH (length rest)) by (simpl; lia || auto).
    cbn [obind]; rewrite Hn, Hv0, Hv1, Hv2; reflexivity.
Qed.

(** *** The hex digest *)

Definition is_hex_digit (c : Z) : bool := ((48 <=? c) && (c <=? 57)) || ((97 <=? c) && (c <=? 102)).

Lemma hex_char_ok x :
  valid_cp (Sha256.hex_char (Z.land x 15)) = true /\ is_hex_digit (Sha256.hex_char (Z.land x 15)) = true.
Proof.
  assert (Hr : 0 <= Z.land x 15 < Z.of_nat 16).
  { change 15 with (Z.ones 4); rewrite Z.land_ones by lia.
    pose proof (Z.mod_pos_bound x (2 ^ 4)); simpl in *; lia. }
  pose proof (check_range (fun d => valid_cp (Sha256.hex_char d) && is_hex_digit (Sha256.hex_char d)) 16
                          ltac:(vm_compute; reflexivity) _ Hr) as H.
  apply andb_true_iff in H; exact H.
Qed.

Lemma word_hex_ok w :
  length (Sha256.word_hex w) = 8%nat /\
  forallb (fun c => valid_cp c && is_hex_digit c) (Sha256.word_hex w) = true.
Proof.
  split; [reflexivity|].
  unfold Sha256.word_hex; rewrite forallb_forall; intros c Hc.
  apply in_map_iff in Hc as (i & <- & _).
  destruct (hex_char_ok (Z.shiftr w (28 - 4 * i))) as [-> ->]; reflexivity.
Qed.

Lemma round_length st kw : length (Sha256.round st kw) = length st.
Proof.
  unfold Sha256.round.
  destruct st as [|a [|b [|c [|d [|e [|f [|g [|h [|i st']]]]]]]]]; reflexivity.
Qed.

Lemma compress_length H block : length (Sha256.compress H block) = length H.
Proof.
  unfold Sha256.compress; rewrite length_map, length_combine.
  assert (forall l st, length (fold_left Sha256.round l st) = length st) as ->.
  { induction l as [|kw l IH]; intros st; simpl; [reflexivity|].
    rewrite IH; apply round_length. }
  lia.
Qed.

Lemma fold_compress_length l H : length (fold_left Sha256.compress l H) = length H.
Proof.
  revert H; induction l as [|b l IH]; intros H; cbn [fold_left]; [reflexivity|].
  rewrite IH; apply compress_length.
Qed.

Lemma digest_words_length bs : length (Sha256.digest_words bs) = 8%nat.
Proof.
  unfold Sha256.digest_words; cbv zeta; rewrite fold_compress_length.
  vm_compute; reflexivity.
Qed.

Lemma flat_word_hex_ok ws :
  length (flat_map Sha256.word_hex ws) = (8 * length ws)%nat /\
  forallb (fun c => valid_cp c && is_hex_digit c) (flat_map Sha256.word_hex ws) = true.
Proof.
  induction ws as [|w ws [IHl IHv]]; cbn [flat_map]; [split; reflexivity|].
  destruct (word_hex_ok w) as [Hwl Hwv].
  rewrite length_app, forallb_app, Hwl, IHl, Hwv, IHv; cbn [length]; split; [lia | reflexivity].
Qed.

(** [hexdigest()] is 64 lower-case hexadecimal digits. *)
Lemma hexdigest_ok bs :
  length (Sha256.hexdigest bs) = 64%nat /\
  forallb (fun c => valid_cp c && is_hex_digit c) (Sha256.hexdigest bs) = true.
Proof.
  unfold Sha256.hexdigest.
  destruct (flat_word_hex_ok (Sha256.digest_words bs)) as [Hl Hv].
  rewrite Hl, digest_words_length; split; [reflexivity | exact Hv].
Qed.

Lemma hexdigest_valid bs : valid_str (Sha256.hexdigest bs) = true.
Proof.
  destruct (hexdigest_ok bs) as [_ H]; unfold valid_str.
  rewrite forallb_forall in *; intros c Hc; specialize (H c Hc).
  apply andb_true_iff in H; tauto.
Qed.

(** *** The markup *)

Lemma str_eqb_eq a b : str_eqb a b = true <-> a = b.
Proof.
  revert b; induction a as [|x a IH]; intros [|y b]; simpl; split; intros H;
    try discriminate; try reflexivity.
  - apply andb_true_iff in H as [Hxy Hab]; apply Z.eqb_eq in Hxy; apply IH in Hab; congruence.
  - injection H as -> ->; rewrite Z.eqb_refl; simpl; apply IH; reflexivity.
Qed.

Lemma aspect_canvas_cases a :
  aspect_canvas a = (1280, 720) \/ aspect_canvas a = (960, 1280) \/ aspect_canvas a = (1024, 1024).
Proof.
  unfold aspect_canvas.
  destruct (str_in a [lit "16:9"; lit "16-9"]); [|destruct (str_in a [lit "3:4"; lit "3-4"])]; auto.
Qed.

Lemma aspect_canvas_table a :
  ((a = lit "16:9" \/ a = lit "16-9") -> aspect_canvas a = (1280, 720)) /\
  ((a = lit "3:4" \/ a = lit "3-4") -> aspect_canvas a = (960, 1280)) /\
  (a <> lit "16:9" -> a <> lit "16-9" -> a <> lit "3:4" -> a <> lit "3-4" ->
   aspect_canvas a = (1024, 1024)).
Proof.
  unfold aspect_canvas, str_in; cbn [existsb].
  repeat split.
  - intros [-> | ->]; reflexivity.
  - intros [-> | ->]; reflexivity.
  - intros H1 H2 H3 H4.
    destruct (str_eqb a (lit "16:9")) eqn:E1; [apply str_eqb_eq in E1; contradiction|].
    destruct (str_eqb a (lit "16-9")) eqn:E2; [apply str_eqb_eq in E2; contradiction|].
    destruct (str_eqb a (lit "3:4")) eqn:E3; [apply str_eqb_eq in E3; contradiction|].
    destruct (str_eqb a (lit "3-4")) eqn:E4; [apply str_eqb_eq in E4; contradiction|].
    reflexivity.
Qed.

Definition prefix (x y : list Z) : Prop := exists r, y = x ++ r.
Definition infix (x y : list Z) : Prop := exists a b, y = a ++ x ++ b.

Lemma prefix_here a y : prefix a (a ++ y).
Proof. exists y; reflexivity. Qed.

Lemma prefix_app a x y : prefix x y -> prefix (a ++ x) (a ++ y).
Proof. intros [r ->]; exists r; now rewrite app_assoc. Qed.

Lemma infix_here x y : prefix x y -> infix x y.
Proof. intros [r ->]; exists [], r; reflexivity. Qed.

Lemma infix_skip x z y : infix x y -> infix x (z ++ y).
Proof. intros (a & b & ->); exists (z ++ a), b; now rewrite app_assoc. Qed.

(** Prefix of a right-nested concatenation, piece by piece. *)
Ltac solve_prefix :=
  repeat first [ exact (prefix_here _ _) | apply prefix_app ].

(** Locate a piece of a right-nested concatenation. *)
Ltac solve_infix :=
  repeat match goal with
         | |- infix (?h ++ _) (?h ++ _) => apply infix_here; solve_prefix
         | |- infix _ (_ ++ _) => apply infix_skip
         end.

Lemma svg_of_seed_template p s a seed :
  svg_of_seed p s a seed =
  svg_template (fst (aspect_canvas a)) (snd (aspect_canvas a))
    (lit "#" ++ slice 0 6 seed) (lit "#" ++ slice 6 12 seed) (lit "#" ++ slice 12 18 seed)
    (firstn 80 p) s.
Proof. unfold svg_of_seed; destruct (aspect_canvas a); reflexivity. Qed.

Lemma svg_of_seed_valid p s a seed :
  valid_str p = true -> valid_str s = true -> valid_str seed = true ->
  valid_str (svg_of_seed p s a seed) = true.
Proof.
  intros Hp Hs Hseed; rewrite svg_of_seed_template.
  destruct (aspect_canvas_cases a) as [-> | [-> | ->]]; cbn [fst snd];
    unfold svg_template, slice; repeat rewrite valid_str_app;
    repeat (apply andb_true_intro; split);
    first [ assumption | apply valid_str_firstn; assumption
          | apply valid_str_firstn, valid_str_skipn; assumption | reflexivity ].
Qed.

(** On valid strings, [_svg_placeholder] hashes the UTF-8 bytes of the
    concatenation and returns the data URI of the UTF-8 bytes of the markup. *)
Lemma svg_placeholder_ok p s a :
  valid_str p = true -> valid_str s = true -> valid_str a = true ->
  exists seed_bytes svg_bytes,
    encode (p ++ s ++ a) = Ok seed_bytes /\
    encode (svg_of_seed p s a (Sha256.hexdigest seed_bytes)) = Ok svg_bytes /\
    Forall is_byte svg_bytes /\
    _svg_placeholder p s a = Ok (data_prefix ++ b64encode svg_bytes).
Proof.
  intros Hp Hs Ha.
  destruct (encode_valid (p ++ s ++ a)) as (seed_bytes & Hseed & _).
  { rewrite !valid_str_app, Hp, Hs, Ha; reflexivity. }
  destruct (encode_valid (svg_of_seed p s a (Sha256.hexdigest seed_bytes))) as (svg_bytes & Hsvg & Hb).
  { apply svg_of_seed_valid; [exact Hp | exact Hs | apply hexdigest_valid]. }
  exists seed_bytes, svg_bytes; repeat split; try assumption.
  unfold _svg_placeholder; rewrite Hseed; cbn [bind]; rewrite Hsvg; reflexivity.
Qed.

(** *** Generator claims *)

(** C1: the output of [generate_art] is a function of the (effective)
    prompt, style and aspect only: two requests that agree on them get
    identical responses (same data URI, same echoed fields), or the same
    exception. *)
Theorem generate_art_deterministic r1 r2 :
  req_prompt r1 = req_prompt r2 ->
  str_or (req_style r1) (lit "dreamy") = str_or (req_style r2) (lit "dreamy") ->
  str_or (req_aspect r1) (lit "1:1") = str_or (req_aspect r2) (lit "1:1") ->
  generate_art r1 = generate_art r2.
Proof. intros Hp Hs Ha; unfold generate_art; rewrite Hp, Hs, Ha; reflexivity. Qed.

Lemma generate_art_deterministic_witness :
  generate_art (mk_art_request (alit "a glowing forest") None None) =
  generate_art (mk_art_request (alit "a glowing forest") (Some (alit "dreamy")) (Some (alit "1:1"))).
Proof. apply generate_art_deterministic; reflexivity. Defined.

(** C4: the seed is [sha256((prompt + style + aspect).encode()).hexdigest()],
    64 hexadecimal digits, and the three gradient stops are "#" followed
    by its digits 0-5, 6-11 and 12-17. *)
Theorem svg_placeholder_seed_colors p s a :
  valid_str p = true -> valid_str s = true -> valid_str a = true ->
  exists seed_bytes svg_bytes,
    encode (p ++ s ++ a) = Ok seed_bytes /\
    let seed := Sha256.hexdigest seed_bytes in
    length seed = 64%nat /\ forallb is_hex_digit seed = true /\
    encode (svg_template (fst (aspect_canvas a)) (snd (aspect_canvas a))
              (lit "#" ++ slice 0 6 seed) (lit "#" ++ slice 6 12 seed) (lit "#" ++ slice 12 18 seed)
              (firstn 80 p) s) = Ok svg_bytes /\
    _svg_placeholder p s a = Ok (data_prefix ++ b64encode svg_bytes).
Proof.
  intros Hp Hs Ha.
  destruct (svg_placeholder_ok p s a Hp Hs Ha) as (seed_bytes & svg_bytes & Hseed & Hsvg & _ & Hout).
  exists seed_bytes, svg_bytes; split; [exact Hseed|]; cbv zeta.
  destruct (hexdigest_ok seed_bytes) as [Hl Hv].
  split; [exact Hl|]; split.
  - rewrite forallb_forall in *; intros c Hc; specialize (Hv c Hc).
    apply andb_true_iff in Hv; tauto.
  - rewrite <- svg_of_seed_template; split; assumption.
Qed.

Lemma svg_placeholder_seed_colors_witness :
  exists seed_bytes svg_bytes,
    encode (alit "a glowing forest" ++ alit "neon" ++ alit "16:9") = Ok seed_bytes /\
    let seed := Sha256.hexdigest seed_bytes in
    length seed = 64%nat /\ forallb is_hex_digit seed = true /\
    encode (svg_template (fst (aspect_canvas (alit "16:9"))) (snd (aspect_canvas (alit "16:9")))
              (lit "#" ++ slice 0 6 seed) (lit "#" ++ slice 6 12 seed) (lit "#" ++ slice 12 18 seed)
              (firstn 80 (alit "a glowing forest")) (alit "neon")) = Ok svg_bytes /\
    _svg_placeholder (alit "a glowing forest") (alit "neon") (alit "16:9") =
      Ok (data_prefix ++ b64encode svg_bytes).
Proof. apply svg_placeholder_seed_colors; vm_compute; reflexivity. Defined.

Lemma svg_template_open w h c1 c2 c3 t st :
  prefix (svg_open w h) (svg_template w h c1 c2 c3 t st).
Proof. unfold svg_open, svg_template; solve_prefix. Qed.

(** C5: the canvas is 1280x720 for "16:9" and "16-9", 960x1280 for "3:4"
    and "3-4", and 1024x1024 for every other aspect. *)
Theorem svg_placeholder_canvas p s a :
  valid_str p = true -> valid_str s = true -> valid_str a = true ->
  exists svg svg_bytes,
    _svg_placeholder p s a = Ok (data_prefix ++ b64encode svg_bytes) /\
    encode svg = Ok svg_bytes /\
    ((a = lit "16:9" \/ a = lit "16-9") -> prefix (svg_open 1280 720) svg) /\
    ((a = lit "3:4" \/ a = lit "3-4") -> prefix (svg_open 960 1280) svg) /\
    (a <> lit "16:9" -> a <> lit "16-9" -> a <> lit "3:4" -> a <> lit "3-4" ->
     prefix (svg_open 1024 1024) svg).
Proof.
  intros Hp Hs Ha.
  destruct (svg_placeholder_ok p s a Hp Hs Ha) as (seed_bytes & svg_bytes & _ & Hsvg & _ & Hout).
  eexists; exists svg_bytes; split; [exact Hout|]; split; [exact Hsvg|].
  rewrite svg_of_seed_template.
  destruct (aspect_canvas_table a) as (H169 & H34 & Hother).
  repeat split.
  - intros H; rewrite (H169 H); apply svg_template_open.
  - intros H; rewrite (H34 H); apply svg_template_open.
  - intros H1 H2 H3 H4; rewrite (Hother H1 H2 H3 H4); apply svg_template_open.
Qed.

Lemma svg_placeholder_canvas_witness :
  exists svg svg_bytes,
    _svg_placeholder (alit "a glowing forest") (alit "neon") (alit "3-4") =
      Ok (data_prefix ++ b64encode svg_bytes) /\
    encode svg = Ok svg_bytes /\
    ((alit "3-4" = lit "16:9" \/ alit "3-4" = lit "16-9") -> prefix (svg_open 1280 720) svg) /\
    ((alit "3-4" = lit "3:4" \/ alit "3-4" = lit "3-4") -> prefix (svg_open 960 1280) svg) /\
    (alit "3-4" <> lit "16:9" -> alit "3-4" <> lit "16-9" -> alit "3-4" <> lit "3:4" ->
     alit "3-4" <> lit "3-4" -> prefix (svg_open 1024 1024) svg).
Proof. apply svg_placeholder_canvas; vm_compute; reflexivity. Defined.

Lemma infix_mid x t y z : infix (x ++ t ++ y) z -> infix t z.
Proof.
  intros (a & b & ->); exists (a ++ x), (y ++ b).
  now rewrite <- !app_assoc.
Qed.

Lemma svg_template_prompt w h c1 c2 c3 t st :
  infix (prompt_text_open ++ t ++ lit "</text>") (svg_template w h c1 c2 c3 t st).
Proof. unfold prompt_text_open, svg_template; solve_infix. Qed.

Lemma svg_template_size w h c1 c2 c3 t st :
  infix (size_attrs w h) (svg_template w h c1 c2 c3 t st).
Proof.
  unfold size_attrs, svg_template.
  assert (E1 : lit "<svg xmlns='http://www.w3.org/2000/svg' width='" =
               lit "<svg xmlns='http://www.w3.org/2000/svg' " ++ lit "width='")
    by reflexivity.
  assert (E2 : lit "'>" = lit "'" ++ lit ">") by reflexivity.
  rewrite E1, E2, <- !app_assoc.
  apply infix_skip, infix_here; solve_prefix.
Qed.

(** C8: the element rendering the prompt holds [prompt[:80]]: exactly the
    first 80 characters of a longer prompt, the whole of a prompt of at
    most 80 characters. *)
Theorem svg_placeholder_prompt_truncation p s a :
  valid_str p = true -> valid_str s = true -> valid_str a = true ->
  exists svg svg_bytes t,
    _svg_placeholder p s a = Ok (data_prefix ++ b64encode svg_bytes) /\
    encode svg = Ok svg_bytes /\
    infix (prompt_text_open ++ t ++ lit "</text>") svg /\
    ((80 < length p)%nat -> length t = 80%nat /\ exists r, p = t ++ r) /\
    ((length p <= 80)%nat -> t = p).
Proof.
  intros Hp Hs Ha.
  destruct (svg_placeholder_ok p s a Hp Hs Ha) as (seed_bytes & svg_bytes & _ & Hsvg & _ & Hout).
  eexists; exists svg_bytes, (firstn 80 p).
  split; [exact Hout|]; split; [exact Hsvg|]; split; [|split].
  - rewrite svg_of_seed_template; apply svg_template_prompt.
  - intros Hl; split.
    + rewrite length_firstn; lia.
    + exists (skipn 80 p); symmetry; apply firstn_skipn.
  - intros Hl; now apply firstn_all2.
Qed.

Lemma svg_placeholder_prompt_truncation_witness :
  exists svg svg_bytes t,
    _svg_placeholder (repeat 97 100) (alit "ink") (alit "1:1") = Ok (data_prefix ++ b64encode svg_bytes) /\
    encode svg = Ok svg_bytes /\
    infix (prompt_text_open ++ t ++ lit "</text>") svg /\
    ((80 < length (repeat 97 100))%nat -> length t = 80%nat /\ exists r, repeat 97 100 = t ++ r) /\
    ((length (repeat 97 100) <= 80)%nat -> t = repeat 97 100).
Proof. apply svg_placeholder_prompt_truncation; vm_compute; reflexivity. Defined.

(** C9: the image is ["data:image/svg+xml;base64,"] followed by the
    base64 of the UTF-8 bytes of the markup; decoding the payload gives
    back those bytes, and the markup holds the size attributes and the
    (truncated) prompt. For ("a glowing forest", "neon", "16:9") the
    response has provider "placeholder", style "neon", and an image whose
    payload decodes to bytes holding width="1280" height="720" and
    "a glowing forest". *)
Theorem generate_art_encoding r :
  valid_str (req_prompt r) = true ->
  valid_str (str_or (req_style r) (lit "dreamy")) = true ->
  valid_str (str_or (req_aspect r) (lit "1:1")) = true ->
  (exists svg svg_bytes,
     generate_art r =
       Ok (mk_art_response (data_prefix ++ b64encode svg_bytes) (req_prompt r)
             (str_or (req_style r) (lit "dreamy")) (lit "placeholder")) /\
     encode svg = Ok svg_bytes /\
     b64decode (b64encode svg_bytes) = Some svg_bytes /\
     infix (size_attrs (fst (aspect_canvas (str_or (req_aspect r) (lit "1:1"))))
                       (snd (aspect_canvas (str_or (req_aspect r) (lit "1:1"))))) svg /\
     infix (firstn 80 (req_prompt r)) svg) /\
  (exists image bs,
     generate_art forest_request =
       Ok (mk_art_response image (alit "a glowing forest") (alit "neon") (alit "placeholder")) /\
     firstn 26 image = data_prefix /\
     b64decode (skipn 26 image) = Some bs /\
     is_infix (lit "width='1280' height='720'") bs = true /\
     is_infix (alit "a glowing forest") bs = true).
Proof.
  intros Hp Hs Ha; split.
  - destruct (svg_placeholder_ok _ _ _ Hp Hs Ha) as (seed_bytes & svg_bytes & _ & Hsvg & Hbytes & Hout).
    eexists; exists svg_bytes.
    split; [unfold generate_art; rewrite Hout; reflexivity|].
    split; [exact Hsvg|]; split; [now apply b64_roundtrip|].
    rewrite svg_of_seed_template; split.
    + apply svg_template_size.
    + eapply infix_mid; apply svg_template_prompt.
  - exists (match generate_art forest_request with Ok x => resp_image x | Raise _ => [] end).
    exists (match b64decode (skipn 26 (match generate_art forest_request with
                                        | Ok x => resp_image x | Raise _ => [] end)) with
            | Some b => b | None => [] end).
    repeat split; vm_compute; reflexivity.
Qed.

Lemma generate_art_encoding_witness :
  (exists svg svg_bytes,
     generate_art forest_request =
       Ok (mk_art_response (data_prefix ++ b64encode svg_bytes) (req_prompt forest_request)
             (str_or (req_style forest_request) (lit "dreamy")) (lit "placeholder")) /\
     encode svg = Ok svg_bytes /\
     b64decode (b64encode svg_bytes) = Some svg_bytes /\
     infix (size_attrs (fst (aspect_canvas (str_or (req_aspect forest_request) (lit "1:1"))))
                       (snd (aspect_canvas (str_or (req_aspect forest_request) (lit "1:1"))))) svg /\
     infix (firstn 80 (req_prompt forest_request)) svg) /\
  (exists image bs,
     generate_art forest_request =
       Ok (mk_art_response image (alit "a glowing forest") (alit "neon") (alit "placeholder")) /\
     firstn 26 image = data_prefix /\
     b64decode (skipn 26 image) = Some bs /\
     is_infix (lit "width='1280' height='720'") bs = true /\
     is_infix (alit "a glowing forest") bs = true).
Proof. apply generate_art_encoding; vm_compute; reflexivity. Defined.

(** ** The probe, start-up, and further properties of the handlers *)

(** A CSS colour [#rrggbb] in lowercase hex. *)
Definition is_css_hex_color (c : pstr) : bool :=
  match c with
  | h :: ds => (h =? 35) && (length ds =? 6)%nat && forallb is_hex_digit ds
  | [] => false
  end.

Lemma test_database_cases env m :
  let r := test_database env m in
  t_backend r = check_mark ++ lit " Running" /\
  t_database_url r = Some (env_flag env (alit "DATABASE_URL")) /\
  t_database_name r = Some (env_flag env (alit "DATABASE_NAME")) /\
  ((m = Ok None /\ t_database r = cross_mark ++ lit " Not Available" /\
    t_connection_status r = lit "Not Connected" /\ t_collections r = []) \/
   (exists e, (m = Raise e \/ exists h, m = Ok (Some h) /\ getattr_name h = Raise e) /\
    t_database r = cross_mark ++ lit " Error: " ++ firstn 80 (exn_msg e) /\
    t_connection_status r = lit "Not Connected" /\ t_collections r = []) \/
   (exists h n e, m = Ok (Some h) /\ getattr_name h = Ok n /\ list_collection_names h = Raise e /\
    t_database r = warning_mark ++ lit " Connected but Error: " ++ firstn 80 (exn_msg e) /\
    t_connection_status r = lit "Connected" /\ t_collections r = []) \/
   (exists h n cols, m = Ok (Some h) /\ getattr_name h = Ok n /\ list_collection_names h = Ok cols /\
    t_database r = check_mark ++ lit " Connected & Working" /\
    t_connection_status r = lit "Connected" /\ t_collections r = firstn 10 cols)).
Proof.
  cbv zeta; unfold test_database, test_body, ptry, pbind, plift, pset, pret.
  destruct m as [[h|]|e].
  - destruct (getattr_name h) as [n|e] eqn:Hn.
    + destruct (list_collection_names h) as [cols|e] eqn:Hl; simpl;
        (split; [reflexivity|]); (split; [reflexivity|]); (split; [reflexivity|]).
      * right; right; right; exists h, n, cols; repeat split; assumption.
      * right; right; left; exists h, n, e; repeat split; assumption.
    + simpl; (split; [reflexivity|]); (split; [reflexivity|]); (split; [reflexivity|]).
      right; left; exists e; split; [right; exists h; split; [reflexivity|assumption]|].
      repeat split.
  - simpl; (split; [reflexivity|]); (split; [reflexivity|]); (split; [reflexivity|]).
    left; repeat split.
  - simpl; (split; [reflexivity|]); (split; [reflexivity|]); (split; [reflexivity|]).
    right; left; exists e; split; [left; reflexivity|]; repeat split.
Qed.
(** The [database] field of the probe is at most 104 characters long,
    whatever the exceptions' messages: both handlers keep [str(e)[:80]]. *)
Lemma test_database_status_capped env m :
  (length (t_database (test_database env m)) <= 104)%nat.
Proof.
  destruct (test_database_cases env m)
    as (_ & _ & _ & [(_ & -> & _) | [(e & _ & -> & _) | [(h & n & e & _ & _ & _ & -> & _) | (h & n & c & _ & _ & _ & -> & _)]]]);
    rewrite ?length_app, ?length_firstn;
    try (generalize (Nat.le_min_l 80 (length (exn_msg e)));
         generalize (Nat.min 80 (length (exn_msg e)))); simpl; lia.
Qed.

(** At most ten collection names are reported, the first ten of
    [db.list_collection_names()], and only when the listing succeeded. *)
Lemma test_database_collections env m :
  (length (t_collections (test_database env m)) <= 10)%nat /\
  (t_collections (test_database env m) <> [] ->
   exists h cols, m = Ok (Some h) /\ list_collection_names h = Ok cols /\
     t_collections (test_database env m) = firstn 10 cols /\
     t_connection_status (test_database env m) = lit "Connected" /\
     t_database (test_database env m) = check_mark ++ lit " Connected & Working").
Proof.
  destruct (test_database_cases env m)
    as (_ & _ & _ & [(_ & _ & _ & Hc) | [(e & _ & _ & _ & Hc) | [(h & n & e & _ & _ & _ & _ & _ & Hc) | (h & n & c & Hm & _ & Hl & Hd & Hs & Hc)]]]);
    rewrite Hc; try (split; [simpl; lia | intros []; reflexivity]).
  split; [rewrite length_firstn; lia|].
  intros _; exists h, c; repeat split; assumption.
Qed.



Lemma lstrip_blank s : forallb py_isspace s = true -> lstrip s = [].
Proof.
  induction s as [|c s IH]; simpl; [reflexivity|].
  intros H; apply andb_true_iff in H as [-> H]; auto.
Qed.

(** A [PORT] that is set but empty or blank does not fall back to 8000:
    [int()] raises [ValueError]. *)
Lemma main_port_blank env s :
  env (alit "PORT") = Some s -> forallb py_isspace s = true ->
  exists e, main_port env = Raise e /\ exn_kind e = ValueError.
Proof.
  intros He Hs; unfold main_port; rewrite He.
  unfold parse_int_str, strip; rewrite (lstrip_blank s Hs); simpl.
  eexists; split; reflexivity.
Qed.


Lemma digit_not_space c : is_digit c = true -> py_isspace c = false.
Proof.
  unfold is_digit; intros H; apply andb_true_iff in H as [H1 H2].
  apply Z.leb_le in H1; apply Z.leb_le in H2.
  assert (c = 48 \/ c = 49 \/ c = 50 \/ c = 51 \/ c = 52 \/ c = 53 \/ c = 54 \/ c = 55 \/ c = 56 \/ c = 57)
    as Hc by lia.
  repeat destruct Hc as [-> | Hc]; [reflexivity ..|]; subst; reflexivity.
Qed.

Lemma dec_aux_S f n acc :
  dec_aux (S f) n acc =
  if n <? 10 then (48 + n mod 10) :: acc else dec_aux f (n / 10) ((48 + n mod 10) :: acc).
Proof. reflexivity. Qed.

Lemma dec_aux_digits f : forall n acc,
  0 <= n < Z.of_nat f ->
  exists u, dec_aux f n acc = u ++ acc /\ u <> [] /\ forallb is_digit u = true /\
    forall a, fold_left (fun x d => x * 10 + d) (map (fun c => c - 48) u) a =
              a * 10 ^ Z.of_nat (length u) + n.
Proof.
  induction f as [|f IH]; intros n acc Hn; [lia|].
  rewrite dec_aux_S; destruct (Z.ltb_spec n 10) as [Hlt|Hge].
  - exists [48 + n mod 10]; repeat split; try discriminate.
    + rewrite Z.mod_small by lia; cbn [forallb]; rewrite andb_true_r; unfold is_digit.
      apply andb_true_iff; split; apply Z.leb_le; lia.
    + intros a; change (Z.of_nat (length [48 + n mod 10])) with 1.
      cbn [map fold_left]; rewrite Z.pow_1_r, Z.mod_small by lia; lia.
  - destruct (IH (n / 10) ((48 + n mod 10) :: acc)) as (u & Hu & Hne & Hd & Hv).
    { split; [apply Z.div_pos; lia|].
      assert (n / 10 <= n - 9) by (pose proof (Z.mul_div_le n 10); pose proof (Z.mod_pos_bound n 10); lia).
      lia. }
    exists (u ++ [48 + n mod 10]); rewrite Hu, <- app_assoc; repeat split.
    + destruct u; [contradiction | discriminate].
    + rewrite forallb_app, Hd; cbn [forallb andb]; rewrite andb_true_r.
      pose proof (Z.mod_pos_bound n 10); unfold is_digit.
      rewrite (proj2 (Z.leb_le 48 (48 + n mod 10))), (proj2 (Z.leb_le (48 + n mod 10) 57)) by lia.
      reflexivity.
    + intros a; rewrite map_app, fold_left_app, Hv, length_app; cbn [map fold_left length].
      rewrite Nat2Z.inj_add, Z.pow_add_r by lia.
      pose proof (Z.div_mod n 10); lia.
Qed.

Lemma digits_tail_digits u : forallb is_digit u = true ->
  digits_tail u = (map (fun c => c - 48) u, []).
Proof.
  induction u as [|c u IH]; simpl; [reflexivity|].
  intros H; apply andb_true_iff in H as [-> H]; now rewrite IH.
Qed.

Lemma lstrip_digits u : u <> [] -> forallb is_digit u = true -> lstrip u = u.
Proof.
  destruct u as [|c u]; [contradiction|]; simpl.
  intros _ H; apply andb_true_iff in H as [H _]; now rewrite digit_not_space.
Qed.

Lemma parse_int_str_dec n : 0 <= n -> parse_int_str (dec n) = Some n.
Proof.
  intros Hn; unfold dec.
  destruct (dec_aux_digits (Z.to_nat n + 1) n [] ltac:(lia)) as (u & Hu & Hne & Hd & Hv).
  rewrite Hu, app_nil_r.
  assert (Hs : strip u = u).
  { unfold strip; rewrite (lstrip_digits u Hne Hd), lstrip_digits.
    - apply rev_involutive.
    - intros Hr; apply Hne; now apply (f_equal (@rev Z)) in Hr; rewrite rev_involutive in Hr.
    - rewrite forallb_forall in *; intros c Hc; apply Hd, in_rev, Hc. }
  unfold parse_int_str; rewrite Hs.
  destruct u as [|c u']; [contradiction|].
  simpl in Hd; apply andb_true_iff in Hd as [Hc Hd].
  assert (Hc' : (c =? 45) = false /\ (c =? 43) = false).
  { unfold is_digit in Hc; apply andb_true_iff in Hc as [H1 H2];
    apply Z.leb_le in H1; apply Z.leb_le in H2; split; apply Z.eqb_neq; lia. }
  destruct Hc' as [-> ->]; simpl; rewrite Hc, digits_tail_digits by exact Hd.
  f_equal; unfold digits_value.
  specialize (Hv 0); simpl in Hv; exact Hv.
Qed.

(** [PORT = str(n)] starts on port [n]. *)
Lemma main_port_roundtrip env n :
  env (alit "PORT") = Some (dec n) -> 0 <= n < 10 ^ 4300 -> main_port env = Ok n.
Proof.
  intros He Hn; unfold main_port; rewrite He, parse_int_str_dec by lia; reflexivity.
Qed.



Lemma encode_surrogate l c : In c l -> is_surrogate c = true -> encode l = Raise encode_err.
Proof.
  induction l as [|c' l IH]; [intros []|]; intros Hin Hs; simpl.
  destruct Hin as [-> | Hin].
  - unfold utf8_cp; rewrite Hs.
    unfold is_surrogate in Hs; apply andb_true_iff in Hs as [H1 H2].
    apply Z.leb_le in H1; apply Z.leb_le in H2.
    rewrite (proj2 (Z.ltb_ge c 128)), (proj2 (Z.ltb_ge c 2048)), (proj2 (Z.ltb_lt c 65536)) by lia.
    reflexivity.
  - destruct (utf8_cp c'); [|reflexivity]. now rewrite (IH Hin Hs).
Qed.

Lemma valid_str_of_range s :
  forallb (fun c => (0 <=? c) && (c <=? 1114111)) s = true ->
  (forall c, In c s -> is_surrogate c = false) -> valid_str s = true.
Proof.
  intros Hr Hs; unfold valid_str; rewrite forallb_forall in *; intros c Hc.
  unfold valid_cp; rewrite (Hr c Hc), (Hs c Hc); reflexivity.
Qed.

(** [generate_art] raises exactly when the prompt, style or aspect holds a
    lone surrogate, and then with [UnicodeEncodeError]. *)
Lemma generate_art_surrogate r :
  let p := req_prompt r in
  let s := str_or (req_style r) (lit "dreamy") in
  let a := str_or (req_aspect r) (lit "1:1") in
  forallb (fun c => (0 <=? c) && (c <=? 1114111)) (p ++ s ++ a) = true ->
  ((exists e, generate_art r = Raise e) <-> exists c, In c (p ++ s ++ a) /\ is_surrogate c = true) /\
  (forall e, generate_art r = Raise e -> exn_kind e = UnicodeEncodeError).
Proof.
  cbv zeta; intros Hr.
  set (p := req_prompt r) in *; set (s := str_or (req_style r) (lit "dreamy")) in *;
    set (a := str_or (req_aspect r) (lit "1:1")) in *.
  destruct (existsb is_surrogate (p ++ s ++ a)) eqn:Hx.
  - apply existsb_exists in Hx as (c & Hc & Hsc).
    assert (Hg : generate_art r = Raise encode_err).
    { unfold generate_art, _svg_placeholder; fold p s a.
      rewrite (encode_surrogate _ c Hc Hsc); reflexivity. }
    rewrite Hg; split.
    + split; [intros _; exists c; auto | intros _; eexists; reflexivity].
    + intros e He; injection He as <-; reflexivity.
  - assert (Hns : forall c, In c (p ++ s ++ a) -> is_surrogate c = false).
    { intros c Hc; destruct (is_surrogate c) eqn:E; [|reflexivity].
      rewrite <- Hx; symmetry; apply existsb_exists; eauto. }
    pose proof (valid_str_of_range _ Hr Hns) as Hv.
    rewrite !valid_str_app in Hv; apply andb_true_iff in Hv as [Hp Hv];
      apply andb_true_iff in Hv as [Hs Ha].
    destruct (svg_placeholder_ok p s a Hp Hs Ha) as (_ & svg_bytes & _ & _ & _ & Hout).
    assert (Hg : generate_art r = Ok (mk_art_response (data_prefix ++ b64encode svg_bytes) p s (lit "placeholder"))).
    { unfold generate_art; fold p s a; rewrite Hout; reflexivity. }
    rewrite Hg; split.
    + split; [intros (e & He); discriminate | intros (c & Hc & Hsc); rewrite Hns in Hsc; auto; discriminate].
    + intros e He; discriminate.
Qed.

Lemma svg_template_style w h c1 c2 c3 t st :
  infix (style_text_open ++ st ++ lit "</text>") (svg_template w h c1 c2 c3 t st).
Proof. unfold style_text_open, svg_template; solve_infix. Qed.

(** The style is inserted into the markup whole, with no truncation. *)
Lemma svg_placeholder_style_full p s a :
  valid_str p = true -> valid_str s = true -> valid_str a = true ->
  exists svg svg_bytes,
    _svg_placeholder p s a = Ok (data_prefix ++ b64encode svg_bytes) /\
    encode svg = Ok svg_bytes /\
    infix (style_text_open ++ s ++ lit "</text>") svg.
Proof.
  intros Hp Hs Ha.
  destruct (svg_placeholder_ok p s a Hp Hs Ha) as (seed_bytes & svg_bytes & _ & Hsvg & _ & Hout).
  eexists; exists svg_bytes; split; [exact Hout|]; split; [exact Hsvg|].
  rewrite svg_of_seed_template; apply svg_template_style.
Qed.

Lemma slice_hex_color seed i :
  length seed = 64%nat -> forallb is_hex_digit seed = true -> (i + 6 <= 64)%nat ->
  is_css_hex_color (lit "#" ++ slice i (i + 6) seed) = true.
Proof.
  intros Hl Hh Hi; unfold slice; replace (i + 6 - i)%nat with 6%nat by lia.
  change (lit "#") with [35]; cbn [app is_css_hex_color].
  rewrite length_firstn, length_skipn, Hl; replace (Nat.min 6 (64 - i)) with 6%nat by lia.
  simpl (35 =? 35); simpl (6 =? 6)%nat; cbn [andb].
  rewrite forallb_forall in *; intros c Hc; apply Hh.
  assert (Hc' : In c (skipn i seed))
    by (rewrite <- (firstn_skipn 6 (skipn i seed)); apply in_or_app; now left).
  rewrite <- (firstn_skipn i seed); apply in_or_app; now right.
Qed.

(** The three stop colours are [#] followed by six lowercase hex digits. *)
Lemma svg_placeholder_colors_hex p s a :
  valid_str p = true -> valid_str s = true -> valid_str a = true ->
  exists c1 c2 c3 svg_bytes,
    is_css_hex_color c1 = true /\ is_css_hex_color c2 = true /\ is_css_hex_color c3 = true /\
    encode (svg_template (fst (aspect_canvas a)) (snd (aspect_canvas a)) c1 c2 c3 (firstn 80 p) s)
      = Ok svg_bytes /\
    _svg_placeholder p s a = Ok (data_prefix ++ b64encode svg_bytes).
Proof.
  intros Hp Hs Ha.
  destruct (svg_placeholder_ok p s a Hp Hs Ha) as (seed_bytes & svg_bytes & _ & Hsvg & _ & Hout).
  destruct (hexdigest_ok seed_bytes) as [Hl Hv].
  assert (Hh : forallb is_hex_digit (Sha256.hexdigest seed_bytes) = true).
  { rewrite forallb_forall in *; intros c Hc; specialize (Hv c Hc).
    apply andb_true_iff in Hv; tauto. }
  rewrite svg_of_seed_template in Hsvg.
  eexists _, _, _, svg_bytes; split; [|split; [|split; [|split; [exact Hsvg | exact Hout]]]].
  - exact (slice_hex_color _ 0 Hl Hh ltac:(lia)).
  - exact (slice_hex_color _ 6 Hl Hh ltac:(lia)).
  - exact (slice_hex_color _ 12 Hl Hh ltac:(lia)).
Qed.

Lemma b64_char_ok i : is_b64_char (b64_char i) = true.
Proof.
  unfold is_b64_char, b64_char.
  destruct (Nat.lt_ge_cases (Z.to_nat i) (length b64_alphabet)) as [H|H].
  - apply orb_true_iff; left; apply existsb_exists.
    exists (nth (Z.to_nat i) b64_alphabet 61); split; [now apply nth_In | apply Z.eqb_refl].
  - rewrite nth_overflow by exact H; apply orb_true_iff; right; reflexivity.
Qed.

Lemma b64encode_shape : forall bs,
  forallb is_b64_char (b64encode bs) = true /\
  length (b64encode bs) = (4 * ((length bs + 2) / 3))%nat.
Proof.
  fix IH 1; intros [|b0 [|b1 [|b2 rest]]].
  - split; reflexivity.
  - cbn [b64encode forallb length]; rewrite !b64_char_ok; split; reflexivity.
  - cbn [b64encode forallb length]; rewrite !b64_char_ok; split; reflexivity.
  - destruct (IH rest) as [Hc Hl]; cbn [b64encode app forallb length].
    rewrite !b64_char_ok, Hc; split; [reflexivity|].
    rewrite Hl; replace (S (S (S (length rest))) + 2)%nat with (length rest + 2 + 1 * 3)%nat by lia.
    rewrite Nat.div_add by lia; lia.
Qed.

(** The payload after the data-URI prefix is canonical base64: alphabet
    characters and [=] only, of length [4 * ceil(n / 3)] for [n] bytes. *)
Lemma svg_placeholder_payload p s a img :
  _svg_placeholder p s a = Ok img ->
  exists svg_bytes payload,
    img = data_prefix ++ payload /\ payload = b64encode svg_bytes /\
    forallb is_b64_char payload = true /\
    length payload = (4 * ((length svg_bytes + 2) / 3))%nat.
Proof.
  unfold _svg_placeholder; intros H.
  apply bind_Ok_inv in H as (seed_bytes & _ & H).
  apply bind_Ok_inv in H as (svg_bytes & _ & H).
  injection H as <-.
  exists svg_bytes, (b64encode svg_bytes); split; [reflexivity|]; split; [reflexivity|].
  apply b64encode_shape.
Qed.

(** *** Sample inputs, and the properties at them *)

Definition port_environ (s : pstr) : environ :=
  fun k => if str_eqb k (alit "PORT") then Some s else None.
Definition surrogate_request : art_request :=
  mk_art_request (alit "moon " ++ [55357]) None None.


Lemma main_port_blank_witness :
  exists e, main_port (port_environ [32; 9]) = Raise e /\ exn_kind e = ValueError.
Proof. apply (main_port_blank _ [32; 9]); reflexivity. Defined.

Lemma main_port_roundtrip_witness : main_port (port_environ (dec 8080)) = Ok 8080.
Proof. apply main_port_roundtrip; [reflexivity | split; [lia | vm_compute; reflexivity]]. Defined.




Lemma generate_art_surrogate_witness :
  ((exists e, generate_art surrogate_request = Raise e) <->
   exists c, In c (req_prompt surrogate_request ++ str_or (req_style surrogate_request) (lit "dreamy") ++
                   str_or (req_aspect surrogate_request) (lit "1:1")) /\ is_surrogate c = true) /\
  (forall e, generate_art surrogate_request = Raise e -> exn_kind e = UnicodeEncodeError).
Proof. apply generate_art_surrogate; vm_compute; reflexivity. Defined.

Lemma svg_placeholder_style_full_witness :
  exists svg svg_bytes,
    _svg_placeholder (alit "a glowing forest") (alit "neon") (alit "16:9") =
      Ok (data_prefix ++ b64encode svg_bytes) /\
    encode svg = Ok svg_bytes /\
    infix (style_text_open ++ alit "neon" ++ lit "</text>") svg.
Proof. apply svg_placeholder_style_full; vm_compute; reflexivity. Defined.

Lemma svg_placeholder_colors_hex_witness :
  exists c1 c2 c3 svg_bytes,
    is_css_hex_color c1 = true /\ is_css_hex_color c2 = true /\ is_css_hex_color c3 = true /\
    encode (svg_template (fst (aspect_canvas (alit "3:4"))) (snd (aspect_canvas (alit "3:4")))
              c1 c2 c3 (firstn 80 (alit "ink lake")) (alit "ink")) = Ok svg_bytes /\
    _svg_placeholder (alit "ink lake") (alit "ink") (alit "3:4") = Ok (data_prefix ++ b64encode svg_bytes).
Proof. apply svg_placeholder_colors_hex; vm_compute; reflexivity. Defined.

Lemma svg_placeholder_payload_witness :
  exists img svg_bytes payload,
    _svg_placeholder (alit "clay fox") (alit "clay") (alit "1:1") = Ok img /\
    img = data_prefix ++ payload /\ payload = b64encode svg_bytes /\
    forallb is_b64_char payload = true /\
    length payload = (4 * ((length svg_bytes + 2) / 3))%nat.
Proof.
  destruct (_svg_placeholder (alit "clay fox") (alit "clay") (alit "1:1")) as [img|e] eqn:H.
  - destruct (svg_placeholder_payload _ _ _ _ H) as (svg_bytes & payload & Hp).
    exists img, svg_bytes, payload; split; [reflexivity | exact Hp].
  - exfalso; vm_compute in H; discriminate.
Defined.
